(** * The sports expert's answer pipeline and the /ask endpoint

    A shallow embedding of [src/src/experts/sports/expert.py]
    ([SportsExpert.get_response] and its four stage helpers) and of the
    [/ask] handler of [src/app.py].

    The Python code is effectful: it calls collaborators whose code is not
    part of the two files (the cache, the knowledge base, the URL sources,
    the completion client, the web-search client, the logger), and it uses
    exceptions for control flow.  Computations are therefore functions
    from the history of collaborator calls made so far to an outcome
    (a value or a raised exception) together with the calls they made;
    collaborators are oracles that may depend on that history. *)

From Stdlib Require Import String Ascii List Bool ZArith Lia.
From Stdlib Require Import SpecFloat.
Import ListNotations.
Local Open Scope string_scope.

Set Implicit Arguments.
Set Warnings "-register-all,-notation-for-abbreviation".

(** ** Python values *)

(** An instance of Python's [Exception]: its class and what [str(e)]
    gives.  Every handler of the two files is [except Exception] or a
    bare [except:]; interpreter signals that derive from [BaseException]
    only are not values of this type. *)
Record Exc : Type := mkExc { exc_class : string; exc_str : string }.

Inductive Outcome (A : Type) : Type :=
| Returned (a : A)
| Raised (e : Exc).
Arguments Raised {A} e.

(** What [json.loads] and [request.get_json] produce. *)
Inductive JSON : Type :=
| JNull
| JBool (b : bool)
| JInt (n : Z)
| JFloat (f : spec_float)
| JStr (s : string)
| JList (xs : list JSON)
| JDict (kvs : list (string * JSON)).

(** Python's truth-value protocol ([if x:], [not x], [x and y], [x or y]). *)
Class Truthy (A : Type) : Type := truthy : A -> bool.

#[global] Instance Truthy_string : Truthy string :=
  fun s => match s with EmptyString => false | String _ _ => true end.

#[global] Instance Truthy_list {A : Type} : Truthy (list A) :=
  fun l => match l with [] => false | _ :: _ => true end.

(** [Optional[T]]: [None] is false, anything else is judged as a [T]. *)
#[global] Instance Truthy_option {A : Type} `{Truthy A} : Truthy (option A) :=
  fun o => match o with None => false | Some a => truthy a end.

#[global] Instance Truthy_JSON : Truthy JSON :=
  fun v => match v with
           | JNull => false
           | JBool b => b
           | JInt n => negb (Z.eqb n 0)
           | JFloat (S754_zero _) => false
           | JFloat _ => true
           | JStr s => truthy s
           | JList xs => truthy xs
           | JDict kvs => truthy kvs
           end.

Fixpoint lookup (key : string) (kvs : list (string * JSON)) : option JSON :=
  match kvs with
  | [] => None
  | (k, v) :: rest => if String.eqb k key then Some v else lookup key rest
  end.

Definition AttributeError (what : string) : Exc :=
  mkExc "AttributeError" (what ++ " object has no attribute 'get'").

Definition type_name (v : JSON) : string :=
  match v with
  | JNull => "'NoneType'"
  | JBool _ => "'bool'"
  | JInt _ => "'int'"
  | JFloat _ => "'float'"
  | JStr _ => "'str'"
  | JList _ => "'list'"
  | JDict _ => "'dict'"
  end.

(** [obj.get(key, default)]: only a dict has the method. *)
Definition py_get (obj : JSON) (key : string) (default : JSON) : Outcome JSON :=
  match obj with
  | JDict kvs =>
      Returned (match lookup key kvs with Some v => v | None => default end)
  | _ => Raised (AttributeError (type_name obj))
  end.

Definition nl : string := String (ascii_of_nat 10) EmptyString.
Definition dq : string := String (ascii_of_nat 34) EmptyString.

(** [sep.join(items)] *)
Fixpoint join (sep : string) (items : list string) : string :=
  match items with
  | [] => ""
  | [x] => x
  | x :: rest => x ++ sep ++ join sep rest
  end.

(** ** Collaborator calls and the computation monad *)

Inductive Event : Type :=
| EvCacheGet (key : string)
| EvCacheSet (key : string) (value : option string)
| EvGetKnowledgeBase
| EvFindAnswer (query : string)
| EvSearchUrlSources (query : string)
| EvGetCompletion (system_prompt prompt : string)
| EvWebSearch (query : string)
| EvLoggerError (msg : string)
| EvGetJson
| EvPrint (msg : string).

Definition Trace : Type := list Event.

(** A computation reads the history of calls and gives its outcome and
    the calls it made itself, oldest first. *)
Definition M (A : Type) : Type := Trace -> Outcome A * Trace.

Definition ret {A : Type} (a : A) : M A := fun _ => (Returned a, []).

Definition raise {A : Type} (e : Exc) : M A := fun _ => (Raised e, []).

Definition lift {A : Type} (o : Outcome A) : M A := fun _ => (o, []).

Definition bind {A B : Type} (m : M A) (k : A -> M B) : M B :=
  fun h =>
    match m h with
    | (Returned a, es) => let (o, es') := k a (h ++ es)%list in (o, (es ++ es')%list)
    | (Raised e, es) => (Raised e, es)
    end.

(** [try: body  except Exception as e: handler e] *)
Definition try_except {A : Type} (body : M A) (handler : Exc -> M A) : M A :=
  fun h =>
    match body h with
    | (Returned a, es) => (Returned a, es)
    | (Raised e, es) => let (o, es') := handler e (h ++ es)%list in (o, (es ++ es')%list)
    end.

(** One call of a collaborator: the oracle answers from the history. *)
Definition call {A : Type} (ev : Event) (oracle : Trace -> Outcome A) : M A :=
  fun h => (oracle h, [ev]).

Declare Scope py_scope.
Delimit Scope py_scope with py.
Notation "x <- m ;; k" := (bind m (fun x => k))
  (at level 61, m at next level, right associativity) : py_scope.
Notation "m ;; k" := (bind m (fun _ => k))
  (at level 61, right associativity) : py_scope.
Local Open Scope py_scope.

(** ** src/src/experts/sports/expert.py *)

Module SportsExpert.

(** The objects the expert holds or imports; none of their code is in the
    two files.  Return types follow the annotations of the helpers that
    pass their results on ([Optional[str]]) and the use of the search
    results ([List[str]], or [None]). *)
Record Collaborators : Type := {
  cache_get : string -> Trace -> Outcome (option string);
  cache_set : string -> option string -> Trace -> Outcome unit;
  get_knowledge_base : Trace -> Outcome unit;
  find_answer : string -> Trace -> Outcome (option string);
  search_url_sources : string -> Trace -> Outcome (option string);
  get_completion : string -> string -> Trace -> Outcome (option string);
  web_search_search : string -> Trace -> Outcome (option (list string))
}.

Definition logger_error (msg : string) : M unit :=
  call (EvLoggerError msg) (fun _ => Returned tt).

Definition fallback_message : string :=
  "I apologize, but I couldn't find a satisfactory answer to your sports-related question. Could you please rephrase or provide more details?".

Definition error_message : string :=
  "I encountered an error while processing your sports-related request. Please try again.".

Definition ai_system_prompt : string :=
  "You are a sports expert assistant. Provide accurate and helpful responses" ++ nl ++
  "        about sports, athletes, teams, competitions, rules, and sports history. If you're not confident" ++ nl ++
  "        about the answer, indicate that.".

Definition web_system_prompt : string :=
  "Sen bir spor uzmanısın. Web arama sonuçlarını kullanarak soruya kapsamlı ve doğru bir yanıt üretmelisin." ++ nl ++
  "            Yanıt üretirken şu kurallara uy:" ++ nl ++
  "            1. Web arama sonuçlarındaki bilgilerin doğruluğunu kontrol et" ++ nl ++
  "            2. Bilgilerin güncelliğini kontrol et" ++ nl ++
  "            3. Çelişkili bilgiler varsa en güvenilir kaynağı seç" ++ nl ++
  "            4. Emin olmadığın bilgileri verme" ++ nl ++
  "            5. Yanıtı net ve anlaşılır bir şekilde ver".

Definition validation_prompt : string :=
  "Web arama sonuçlarından üretilen yanıtın doğruluğunu kontrol et." ++ nl ++
  "                Yanıt güvenilir ve güncel bilgiler içeriyorsa onay ver." ++ nl ++
  "                Yanıt JSON formatında olmalı: {" ++ dq ++ "is_valid" ++ dq ++
  ": boolean, " ++ dq ++ "reason" ++ dq ++ ": string}".

(** [str(x)] inside an f-string, for an [Optional[str]]. *)
Definition format_opt (x : option string) : string :=
  match x with Some s => s | None => "None" end.

(** What a [try] block hands to the code after it: a [return] that leaves
    the function, or falling off its end. *)
Inductive Flow (A : Type) : Type :=
| Return (a : A)
| Next.
Arguments Next {A}.

Inductive Stage : Type := LOCAL_KB | URL_SOURCES | AI_GENERATE | WEB_SEARCH.

(** The fixed order of section 4.2 of the specification. *)
Definition stage_order : list Stage :=
  [LOCAL_KB; URL_SOURCES; AI_GENERATE; WEB_SEARCH].

Definition is_cache_write (ev : Event) : bool :=
  match ev with EvCacheSet _ _ => true | _ => false end.

Definition is_log (ev : Event) : bool :=
  match ev with EvLoggerError _ => true | _ => false end.

Section Pipeline.

(** [json.loads] on a [str]: a pure function of the text. *)
Variable json_loads : string -> Outcome JSON.

Variable env : Collaborators.

(** [json.loads(validation)] where [validation] may be [None]. *)
Definition py_json_loads (validation : option string) : Outcome JSON :=
  match validation with
  | Some text => json_loads text
  | None =>
      Raised (mkExc "TypeError"
                "the JSON object must be str, bytes or bytearray, not NoneType")
  end.

Definition _check_local_knowledge (query : string) : M (option string) :=
  try_except
    (_ <- call EvGetKnowledgeBase (get_knowledge_base env) ;;
     call (EvFindAnswer query) (find_answer env query))
    (fun e =>
       logger_error ("Error checking local knowledge: " ++ exc_str e) ;;
       ret None).

Definition _check_url_sources (query : string) : M (option string) :=
  try_except
    (call (EvSearchUrlSources query) (search_url_sources env query))
    (fun e =>
       logger_error ("Error checking URL sources: " ++ exc_str e) ;;
       ret None).

Definition _generate_ai_response (query : string) : M (option string) :=
  let system_prompt := ai_system_prompt in
  try_except
    (response <- call (EvGetCompletion system_prompt query)
                      (get_completion env system_prompt query) ;;
     ret response)
    (fun e =>
       logger_error ("Error generating AI response: " ++ exc_str e) ;;
       ret None).

(** Line 97, the query sent to the search service. *)
Definition search_query_of (query : string) : string :=
  query ++ " spor haberleri güncel".

(** Line 104: the top three snippets, one per line. *)
Definition context_of (search_results : list string) : string :=
  join nl (firstn 3 search_results).

(** Line 115, the request for a synthesized answer. *)
Definition synthesis_prompt (query context : string) : string :=
  "Soru: " ++ query ++ nl ++ nl ++ "Web arama sonuçları:" ++ nl ++ context ++
  nl ++ nl ++ "Bu bilgileri kullanarak soruya yanıt ver.".

(** Line 126, the request for a verdict on [response]. *)
Definition validation_request (response : option string) (context : string)
  : string :=
  "Yanıt: " ++ format_opt response ++ nl ++ nl ++ "Kaynaklar:" ++ nl ++ context.

(** Lines 129-134: the inner [try] with its bare [except: pass]. *)
Definition check_validation (validation response : option string)
  : M (Flow (option string)) :=
  try_except
    (validation_result <- lift (py_json_loads validation) ;;
     is_valid <- lift (py_get validation_result "is_valid" (JBool false)) ;;
     if truthy is_valid then ret (Return response) else ret Next)
    (fun _ => ret Next).

Definition _perform_web_search (query : string) : M (option string) :=
  try_except
    (let search_query := search_query_of query in
     search_results <- call (EvWebSearch search_query)
                            (web_search_search env search_query) ;;
     match search_results with
     | None | Some [] => ret None   (* if not search_results: return None *)
     | Some results =>
         let context := context_of results in
         let system_prompt := web_system_prompt in
         response <- call (EvGetCompletion system_prompt
                             (synthesis_prompt query context))
                          (get_completion env system_prompt
                             (synthesis_prompt query context)) ;;
         if truthy response then
           validation <- call (EvGetCompletion validation_prompt
                                 (validation_request response context))
                              (get_completion env validation_prompt
                                 (validation_request response context)) ;;
           flow <- check_validation validation response ;;
           match flow with
           | Return r => ret r
           | Next => ret None
           end
         else ret None
     end)
    (fun e =>
       logger_error ("Error in web search: " ++ exc_str e) ;;
       ret None).

(** The body of the [try] of [get_response], lines 27-57. *)
Definition get_response_body (query : string) : M (option string) :=
  cached_response <- call (EvCacheGet query) (cache_get env query) ;;
  if truthy cached_response then ret cached_response else
  local_response <- _check_local_knowledge query ;;
  if truthy local_response then
    call (EvCacheSet query local_response) (cache_set env query local_response) ;;
    ret local_response
  else
  url_response <- _check_url_sources query ;;
  if truthy url_response then
    call (EvCacheSet query url_response) (cache_set env query url_response) ;;
    ret url_response
  else
  ai_response <- _generate_ai_response query ;;
  if truthy ai_response then
    call (EvCacheSet query ai_response) (cache_set env query ai_response) ;;
    ret ai_response
  else
  web_response <- _perform_web_search query ;;
  if truthy web_response then
    call (EvCacheSet query web_response) (cache_set env query web_response) ;;
    ret web_response
  else
  ret (Some fallback_message).

Definition get_response (query : string) : M (option string) :=
  try_except
    (get_response_body query)
    (fun e =>
       logger_error ("Error in get_response: " ++ exc_str e) ;;
       ret (Some error_message)).

(** *** The pipeline as the specification words it

    The four substantive stages and a driver that runs a list of stages in
    order, stops at the first non-empty answer, stores it and returns it,
    and ends in the fallback message. *)

Definition stage_helper (s : Stage) : string -> M (option string) :=
  match s with
  | LOCAL_KB => _check_local_knowledge
  | URL_SOURCES => _check_url_sources
  | AI_GENERATE => _generate_ai_response
  | WEB_SEARCH => _perform_web_search
  end.

Fixpoint run_stages (stages : list Stage) (query : string)
  : M (option string) :=
  match stages with
  | [] => ret (Some fallback_message)
  | s :: rest =>
      answer <- stage_helper s query ;;
      if truthy answer then
        call (EvCacheSet query answer) (cache_set env query answer) ;;
        ret answer
      else run_stages rest query
  end.

(** Every stage of the list, run in order from history [h], ends without
    an answer; the result is the calls they made. *)
Fixpoint misses (stages : list Stage) (query : string) (h : Trace)
  : option Trace :=
  match stages with
  | [] => Some []
  | s :: rest =>
      match stage_helper s query h with
      | (Returned answer, es) =>
          if truthy answer then None
          else match misses rest query (h ++ es)%list with
               | Some es' => Some (es ++ es')%list
               | None => None
               end
      | (Raised _, _) => None
      end
  end.

(** What storing [answer] and returning it comes to, [cache.set] being
    called at history [h]: the answer, or the error message of the
    top-level handler when [cache.set] raises. *)
Definition stored (query : string) (answer : option string) (h : Trace)
  : Outcome (option string) * Trace :=
  match cache_set env query answer h with
  | Returned _ => (Returned answer, [EvCacheSet query answer])
  | Raised e =>
      (Returned (Some error_message),
       [EvCacheSet query answer;
        EvLoggerError ("Error in get_response: " ++ exc_str e)])
  end.

(** *** The validation sub-step *)

(** The web-search stage got as far as the verdict: the search gave
    [results], the synthesis gave a non-empty [response], and the second
    completion call gave [validation]. *)
Definition validation_reached (query : string) (h : Trace)
    (results : list string) (response validation : option string) : Prop :=
  web_search_search env (search_query_of query) h = Returned (Some results) /\
  truthy results = true /\
  get_completion env web_system_prompt
    (synthesis_prompt query (context_of results))
    (h ++ [EvWebSearch (search_query_of query)])%list = Returned response /\
  truthy response = true /\
  get_completion env validation_prompt
    (validation_request response (context_of results))
    (h ++ [EvWebSearch (search_query_of query);
           EvGetCompletion web_system_prompt
             (synthesis_prompt query (context_of results))])%list
  = Returned validation.

(** The calls of a web-search stage that reaches the verdict. *)
Definition validation_calls (query : string) (results : list string)
    (response : option string) : Trace :=
  [EvWebSearch (search_query_of query);
   EvGetCompletion web_system_prompt
     (synthesis_prompt query (context_of results));
   EvGetCompletion validation_prompt
     (validation_request response (context_of results))].

(** The verdict the code acts on: the text decodes to a dict whose
    [is_valid] entry is true as a Python condition. *)
Definition approves (validation : option string) : bool :=
  match py_json_loads validation with
  | Returned (JDict kvs) =>
      match lookup "is_valid" kvs with
      | Some v => truthy v
      | None => false
      end
  | _ => false
  end.

(** The text does not decode, or not to a dict, or to one without an
    [is_valid] entry. *)
Definition no_verdict (validation : option string) : bool :=
  match py_json_loads validation with
  | Returned (JDict kvs) =>
      match lookup "is_valid" kvs with
      | Some _ => false
      | None => true
      end
  | _ => true
  end.

(** The text decodes to a dict that has both fields of a verdict. *)
Definition has_both_fields (validation : option string) : bool :=
  match py_json_loads validation with
  | Returned (JDict kvs) =>
      match lookup "is_valid" kvs, lookup "reason" kvs with
      | Some _, Some _ => true
      | _, _ => false
      end
  | _ => false
  end.

(** The [is_valid] entry when the text decodes to a dict that has one. *)
Definition is_valid_entry (validation : option string) : option JSON :=
  match py_json_loads validation with
  | Returned (JDict kvs) => lookup "is_valid" kvs
  | _ => None
  end.

End Pipeline.

(** *** Construction, lines 13-22 *)

(** [obj[key]] with a string key. *)
Definition py_getitem (obj : JSON) (key : string) : Outcome JSON :=
  match obj with
  | JDict kvs =>
      match lookup key kvs with
      | Some v => Returned v
      | None => Raised (mkExc "KeyError" ("'" ++ key ++ "'"))
      end
  | JList _ =>
      Raised (mkExc "TypeError"
                "list indices must be integers or slices, not str")
  | JStr _ =>
      Raised (mkExc "TypeError" "string indices must be integers, not 'str'")
  | _ =>
      Raised (mkExc "TypeError" (type_name obj ++ " object is not subscriptable"))
  end.

(** What the constructor builds and what the module imports.  An object
    is given by the methods the pipeline calls on it; each constructor
    may raise. *)
Record Services : Type := {
  BaseExpert_init : string -> Outcome unit;
  OpenAIClient : Outcome (string -> string -> Trace -> Outcome (option string));
  WebSearchClient : Outcome (string -> Trace -> Outcome (option (list string)));
  Cache : JSON -> JSON ->
          Outcome ((string -> Trace -> Outcome (option string)) *
                   (string -> option string -> Trace -> Outcome unit));
  local_get_knowledge_base : Trace -> Outcome unit;
  local_find_answer : string -> Trace -> Outcome (option string);
  url_search_url_sources : string -> Trace -> Outcome (option string)
}.

(** [SportsExpert(config)]: the expert, as the collaborators its pipeline
    runs on.  The two subscripts of the configuration are evaluated in
    source order, before [Cache] is called; storing [config] and getting
    the logger cannot fail and leave no trace here. *)
Definition __init__ (sv : Services) (config : JSON) : M Collaborators :=
  lift (BaseExpert_init sv "sports") ;;
  openai_client <- lift (OpenAIClient sv) ;;
  web_search <- lift (WebSearchClient sv) ;;
  experts <- lift (py_getitem config "experts") ;;
  sports <- lift (py_getitem experts "sports") ;;
  enabled <- lift (py_getitem sports "cache_enabled") ;;
  experts' <- lift (py_getitem config "experts") ;;
  sports' <- lift (py_getitem experts' "sports") ;;
  ttl <- lift (py_getitem sports' "cache_ttl") ;;
  cache <- lift (Cache sv enabled ttl) ;;
  ret {| cache_get := fst cache;
         cache_set := snd cache;
         get_knowledge_base := local_get_knowledge_base sv;
         find_answer := local_find_answer sv;
         search_url_sources := url_search_url_sources sv;
         get_completion := openai_client;
         web_search_search := web_search |}.

(** *** Counting the calls of a request *)

Definition is_cache_read (ev : Event) : bool :=
  match ev with EvCacheGet _ => true | _ => false end.

Definition is_completion (ev : Event) : bool :=
  match ev with EvGetCompletion _ _ => true | _ => false end.

Definition is_search (ev : Event) : bool :=
  match ev with EvWebSearch _ => true | _ => false end.

Definition is_lookup (ev : Event) : bool :=
  match ev with
  | EvGetKnowledgeBase | EvFindAnswer _ | EvSearchUrlSources _ => true
  | _ => false
  end.

Definition calls (p : Event -> bool) (es : Trace) : nat :=
  List.length (filter p es).

(** The calls of one entry point, and the completion requests made with
    one system prompt. *)
Definition is_get_knowledge_base (ev : Event) : bool :=
  match ev with EvGetKnowledgeBase => true | _ => false end.

Definition is_find_answer (ev : Event) : bool :=
  match ev with EvFindAnswer _ => true | _ => false end.

Definition is_search_url_sources (ev : Event) : bool :=
  match ev with EvSearchUrlSources _ => true | _ => false end.

Definition is_completion_for (system_prompt : string) (ev : Event) : bool :=
  match ev with
  | EvGetCompletion s _ => String.eqb s system_prompt
  | _ => false
  end.

(** No collaborator of [env] ever raises. *)
Definition never_raises (env : Collaborators) : Prop :=
  (forall q h, exists v, cache_get env q h = Returned v) /\
  (forall q a h, exists v, cache_set env q a h = Returned v) /\
  (forall h, exists v, get_knowledge_base env h = Returned v) /\
  (forall q h, exists v, find_answer env q h = Returned v) /\
  (forall q h, exists v, search_url_sources env q h = Returned v) /\
  (forall s p h, exists v, get_completion env s p h = Returned v) /\
  (forall q h, exists v, web_search_search env q h = Returned v).

End SportsExpert.

(** ** src/app.py *)

Module App.

(** The dict given to [jsonify]. *)
Inductive Body : Type :=
| ErrorBody (error code : string)
| SuccessBody (answer : option string) (expert_type : string).

(** A Flask view result: the body and the HTTP status (200 when the view
    returns the body alone). *)
Record Response : Type := mkResponse { body : Body; status : Z }.

(** The module-level objects set up at lines 17-32, each one either built
    or [None].  An expert is used through [get_response] only and the
    selector through [select_expert] only, so an object is the method. *)
Record Globals : Type := {
  sports_expert : option (JSON -> M (option string));
  food_expert : option (JSON -> M (option string));
  ai_expert : option (JSON -> M (option string));
  sudostar_expert : option (JSON -> M (option string));
  expert_selector : option (JSON -> M (option string * option string))
}.

(** An object of these classes is true; [None] is false. *)
#[global] Instance Truthy_object {A B : Type} : Truthy (option (A -> M B)) :=
  fun o => match o with None => false | Some _ => true end.

Definition print (msg : string) : M unit :=
  call (EvPrint msg) (fun _ => Returned tt).

(** [expert_type == name] *)
Definition eq_str (expert_type : option string) (name : string) : bool :=
  match expert_type with
  | Some s => String.eqb s name
  | None => false
  end.

(** [expert_type or default] *)
Definition or_default (expert_type : option string) (default : string) : string :=
  match expert_type with
  | Some s => if truthy s then s else default
  | None => default
  end.

(** [await expert.get_response(question)] once [expert] is known to be true. *)
Definition get_response_of (expert : option (JSON -> M (option string)))
    (question : JSON) : M (option string) :=
  match expert with
  | Some get_response => get_response question
  | None => raise (mkExc "AttributeError"
                     "'NoneType' object has no attribute 'get_response'")
  end.

Section Ask.

Variable g : Globals.

(** [request.get_json()] *)
Variable get_json : Trace -> Outcome JSON.

Definition ask : M Response :=
  try_except
    (match expert_selector g with
     | None =>
         ret (mkResponse
                (ErrorBody "Expert system is not initialized" "EXPERT_SYSTEM_ERROR")
                500)
     | Some select_expert =>
         data <- call EvGetJson get_json ;;
         question <- lift (py_get data "question" JNull) ;;
         if negb (truthy question) then
           ret (mkResponse (ErrorBody "Question is required" "MISSING_QUESTION") 400)
         else
         selected <- select_expert question ;;
         let (expert_type, direct_response) := selected in
         response <-
           (if truthy expert_type then
              if eq_str expert_type "sports" && truthy (sports_expert g) then
                get_response_of (sports_expert g) question
              else if eq_str expert_type "food" && truthy (food_expert g) then
                get_response_of (food_expert g) question
              else if eq_str expert_type "ai" && truthy (ai_expert g) then
                get_response_of (ai_expert g) question
              else if eq_str expert_type "sudostar" && truthy (sudostar_expert g) then
                get_response_of (sudostar_expert g) question
              else ret None
            else ret direct_response) ;;
         if negb (truthy response) then
           ret (mkResponse (ErrorBody "Could not generate response" "NO_RESPONSE") 500)
         else
         ret (mkResponse
                (SuccessBody response (or_default expert_type "general")) 200)
     end)
    (fun e =>
       print ("Error in /ask endpoint: " ++ exc_str e) ;;
       ret (mkResponse (ErrorBody (exc_str e) "INTERNAL_ERROR") 500)).

End Ask.

(** The codes of a structured error. *)
Definition error_codes : list string :=
  ["EXPERT_SYSTEM_ERROR"; "MISSING_QUESTION"; "NO_RESPONSE"; "INTERNAL_ERROR"].

(** The contract of the inbound boundary: a success carries a non-empty
    answer string, anything else is a structured error with one of the
    codes. *)
Definition meets_contract (r : Response) : Prop :=
  match body r with
  | SuccessBody answer _ =>
      status r = 200%Z /\ exists s, answer = Some s /\ s <> EmptyString
  | ErrorBody _ code => status r <> 200%Z /\ In code error_codes
  end.

(** *** /health, lines 48-59 *)

(** Line 35. *)
Definition telegram_status : string := "disabled".

(** The dict given to [jsonify] by [health]. *)
Record HealthBody : Type := mkHealth {
  health_status : string;
  service_api : string;
  service_telegram_bot : string;
  service_expert_system : string
}.

Definition health (g : Globals) : HealthBody * Z :=
  let expert_status :=
    match expert_selector g with Some _ => "running" | None => "error" end in
  (mkHealth "healthy" "running" telegram_status expert_status, 200%Z).

(** *** Start-up, lines 17-32 *)

(** What the start-up code calls: the configuration loader and the
    constructors.  The sports expert is built by [SportsExpert.__init__];
    the other classes are not part of the two files.  [bound_get_response]
    is [get_response] as a bound method of the sports expert, taking
    whatever /ask passes. *)
Record Startup : Type := {
  load_config : Outcome JSON;
  services : SportsExpert.Services;
  bound_get_response : SportsExpert.Collaborators -> JSON -> M (option string);
  FoodExpert : JSON -> Outcome (JSON -> M (option string));
  AIExpert : JSON -> Outcome (JSON -> M (option string));
  SudoStarExpert : JSON -> Outcome (JSON -> M (option string));
  ExpertSelector : Outcome (JSON -> M (option string * option string))
}.

(** The default values of lines 28-32. *)
Definition no_globals : Globals :=
  {| sports_expert := None; food_expert := None; ai_expert := None;
     sudostar_expert := None; expert_selector := None |}.

Definition init_expert_system (st : Startup) : M Globals :=
  try_except
    (config <- lift (load_config st) ;;
     sports <- SportsExpert.__init__ (services st) config ;;
     food <- lift (FoodExpert st config) ;;
     ai <- lift (AIExpert st config) ;;
     sudostar <- lift (SudoStarExpert st config) ;;
     selector <- lift (ExpertSelector st) ;;
     ret {| sports_expert := Some (bound_get_response st sports);
            food_expert := Some food;
            ai_expert := Some ai;
            sudostar_expert := Some sudostar;
            expert_selector := Some selector |})
    (fun e =>
       print ("Error initializing expert system: " ++ exc_str e) ;;
       ret no_globals).

(** All five objects were built, or none is left. *)
Definition all_built (g : Globals) : bool :=
  truthy (sports_expert g) && truthy (food_expert g) && truthy (ai_expert g) &&
  truthy (sudostar_expert g) && truthy (expert_selector g).

Definition none_built (g : Globals) : bool :=
  negb (truthy (sports_expert g)) && negb (truthy (food_expert g)) &&
  negb (truthy (ai_expert g)) && negb (truthy (sudostar_expert g)) &&
  negb (truthy (expert_selector g)).

(** The expert names /ask dispatches on. *)
Definition expert_names : list string := ["sports"; "food"; "ai"; "sudostar"].

(** The expert /ask reaches for a name. *)
Definition expert_named (g : Globals) (name : string)
  : option (JSON -> M (option string)) :=
  if String.eqb name "sports" then sports_expert g
  else if String.eqb name "food" then food_expert g
  else if String.eqb name "ai" then ai_expert g
  else if String.eqb name "sudostar" then sudostar_expert g
  else None.

(** Lines 84-96: the response /ask works with, once the selector has
    given [expert_type] and [direct_response]. *)
Definition chosen_response (g : Globals)
    (expert_type direct_response : option string) (question : JSON)
  : M (option string) :=
  if truthy expert_type then
    if eq_str expert_type "sports" && truthy (sports_expert g) then
      get_response_of (sports_expert g) question
    else if eq_str expert_type "food" && truthy (food_expert g) then
      get_response_of (food_expert g) question
    else if eq_str expert_type "ai" && truthy (ai_expert g) then
      get_response_of (ai_expert g) question
    else if eq_str expert_type "sudostar" && truthy (sudostar_expert g) then
      get_response_of (sudostar_expert g) question
    else ret None
  else ret direct_response.

(** Lines 98-111: the reply for a response. *)
Definition reply (response expert_type : option string) : Response :=
  if negb (truthy response) then
    mkResponse (ErrorBody "Could not generate response" "NO_RESPONSE") 500
  else
    mkResponse (SuccessBody response (or_default expert_type "general")) 200.

(** Lines 113-119: the reply for an exception. *)
Definition internal_error (e : Exc) : Response :=
  mkResponse (ErrorBody (exc_str e) "INTERNAL_ERROR") 500.

End App.

(** ** A decoder for plain JSON texts

    The theorems on the web-search stage hold for every decoder.  The
    examples need the value of [json.loads] at a few concrete texts; this
    decoder gives it for texts built from objects, arrays, strings without
    escapes, integers, [true], [false] and [null].  Fractions, exponents,
    string escapes and the constants [NaN] and [Infinity], which
    [json.loads] also reads, are outside of it and are not used below. *)

Module JsonText.

Local Open Scope char_scope.

Definition is_ws (c : ascii) : bool :=
  Ascii.eqb c " " || Ascii.eqb c "009" || Ascii.eqb c "010" || Ascii.eqb c "013".

Definition is_digit (c : ascii) : bool :=
  (48 <=? nat_of_ascii c)%nat && (nat_of_ascii c <=? 57)%nat.

Definition digit_value (c : ascii) : Z := Z.of_nat (nat_of_ascii c - 48).

Fixpoint skip_ws (s : string) : string :=
  match s with
  | String c r => if is_ws c then skip_ws r else s
  | EmptyString => s
  end.

(** The text after an opening quote, up to the closing one. *)
Fixpoint scan_string (s : string) : option (string * string) :=
  match s with
  | EmptyString => None
  | String c r =>
      if Ascii.eqb c (ascii_of_nat 34) then Some (EmptyString, r)
      else if Ascii.eqb c "092" || (nat_of_ascii c <? 32)%nat then None
      else match scan_string r with
           | Some (content, rest) => Some (String c content, rest)
           | None => None
           end
  end.

Fixpoint scan_digits (s : string) (acc : Z) : Z * string :=
  match s with
  | String c r => if is_digit c then scan_digits r (10 * acc + digit_value c)
                  else (acc, s)
  | EmptyString => (acc, s)
  end.

Definition starts_fraction (s : string) : bool :=
  match s with
  | String c _ => Ascii.eqb c "." || Ascii.eqb c "e" || Ascii.eqb c "E"
  | EmptyString => false
  end.

(** [0] or a digit sequence without a leading zero. *)
Definition scan_nat (s : string) : option (Z * string) :=
  match s with
  | String c r =>
      if Ascii.eqb c "0" then
        if starts_fraction r then None else Some (0%Z, r)
      else if is_digit c then
        let (n, rest) := scan_digits s 0 in
        if starts_fraction rest then None else Some (n, rest)
      else None
  | EmptyString => None
  end.

Definition scan_int (s : string) : option (JSON * string) :=
  match s with
  | String "-" r =>
      match scan_nat r with
      | Some (n, rest) => Some (JInt (- n), rest)
      | None => None
      end
  | _ =>
      match scan_nat s with
      | Some (n, rest) => Some (JInt n, rest)
      | None => None
      end
  end.

Definition scan_literal (s : string) : option (JSON * string) :=
  match s with
  | String "t" (String "r" (String "u" (String "e" r))) => Some (JBool true, r)
  | String "f" (String "a" (String "l" (String "s" (String "e" r)))) =>
      Some (JBool false, r)
  | String "n" (String "u" (String "l" (String "l" r))) => Some (JNull, r)
  | _ => scan_int s
  end.

(** A later pair with the same key replaces the value of the earlier one. *)
Fixpoint dict_set (key : string) (v : JSON) (kvs : list (string * JSON))
  : list (string * JSON) :=
  match kvs with
  | [] => [(key, v)]
  | (k, w) :: rest =>
      if String.eqb k key then (k, v) :: rest else (k, w) :: dict_set key v rest
  end.

Fixpoint decode_value (fuel : nat) (s : string) {struct fuel}
  : option (JSON * string) :=
  match fuel with
  | O => None
  | S fuel' =>
      match s with
      | String "{" r =>
          match skip_ws r with
          | String "}" r' => Some (JDict [], r')
          | s' => decode_members fuel' s' []
          end
      | String "[" r =>
          match skip_ws r with
          | String "]" r' => Some (JList [], r')
          | s' => decode_elements fuel' s' []
          end
      | String c r =>
          if Ascii.eqb c (ascii_of_nat 34) then
            match scan_string r with
            | Some (content, rest) => Some (JStr content, rest)
            | None => None
            end
          else scan_literal s
      | EmptyString => None
      end
  end
with decode_elements (fuel : nat) (s : string) (acc : list JSON) {struct fuel}
  : option (JSON * string) :=
  match fuel with
  | O => None
  | S fuel' =>
      match decode_value fuel' s with
      | Some (v, rest) =>
          match skip_ws rest with
          | String "," r => decode_elements fuel' (skip_ws r) (acc ++ [v])%list
          | String "]" r => Some (JList (acc ++ [v])%list, r)
          | _ => None
          end
      | None => None
      end
  end
with decode_members (fuel : nat) (s : string) (acc : list (string * JSON))
  {struct fuel} : option (JSON * string) :=
  match fuel with
  | O => None
  | S fuel' =>
      match s with
      | String c r =>
          if Ascii.eqb c (ascii_of_nat 34) then
            match scan_string r with
            | Some (key, rest) =>
                match skip_ws rest with
                | String ":" r2 =>
                    match decode_value fuel' (skip_ws r2) with
                    | Some (v, rest2) =>
                        match skip_ws rest2 with
                        | String "," r3 =>
                            decode_members fuel' (skip_ws r3) (dict_set key v acc)
                        | String "}" r3 => Some (JDict (dict_set key v acc), r3)
                        | _ => None
                        end
                    | None => None
                    end
                | _ => None
                end
            | None => None
            end
          else None
      | EmptyString => None
      end
  end.

Definition JSONDecodeError (msg : string) : Exc := mkExc "JSONDecodeError" msg.

Definition loads (text : string) : Outcome JSON :=
  match decode_value (2 * String.length text + 2) (skip_ws text) with
  | Some (v, rest) =>
      match skip_ws rest with
      | EmptyString => Returned v
      | _ => Raised (JSONDecodeError "Extra data")
      end
  | None => Raised (JSONDecodeError "Expecting value")
  end.

End JsonText.


(** ** Scripted collaborators for the examples *)

Module Scenario.

Import SportsExpert.

(** Collaborators that answer the same whatever the history: the cache,
    the two curated sources, the three completion requests (told apart by
    their system prompt) and the search service. *)
Definition scripted (cached : Outcome (option string))
    (set_result : Outcome unit)
    (kb_answer url_answer ai_answer : Outcome (option string))
    (search_results : Outcome (option (list string)))
    (synthesis validation : Outcome (option string)) : Collaborators :=
  {| cache_get := fun _ _ => cached;
     cache_set := fun _ _ _ => set_result;
     get_knowledge_base := fun _ => Returned tt;
     find_answer := fun _ _ => kb_answer;
     search_url_sources := fun _ _ => url_answer;
     get_completion := fun system_prompt _ _ =>
       if String.eqb system_prompt ai_system_prompt then ai_answer
       else if String.eqb system_prompt web_system_prompt then synthesis
       else validation;
     web_search_search := fun _ _ => search_results |}.

Definition world_cup_query : string := "Kim 2022 Dünya Kupası'nı kazandı?".

Definition world_cup_answer : string := "Argentina won the 2022 World Cup.".

Definition snippets : list string :=
  ["Arjantin 2022 Dünya Kupası şampiyonu oldu.";
   "Final: Arjantin - Fransa 3-3, penaltılar 4-2.";
   "Messi turnuvanın en iyi oyuncusu seçildi.";
   "Katar 2022 maç programı"].


(** Nothing cached, no curated answer, an empty completion: the
    web-search stage decides, with [validation] as the verdict text. *)
Definition web_decides (validation : option string) : Collaborators :=
  scripted (Returned None) (Returned tt) (Returned None) (Returned None)
    (Returned (Some "")) (Returned (Some snippets))
    (Returned (Some world_cup_answer)) (Returned validation).

(** As [web_decides], but the validation request itself fails. *)
Definition validation_down : Collaborators :=
  scripted (Returned None) (Returned tt) (Returned None) (Returned None)
    (Returned (Some "")) (Returned (Some snippets))
    (Returned (Some world_cup_answer))
    (Raised (mkExc "TimeoutError" "completion timed out")).

(** Every stage misses: an empty search result ends the last one. *)
Definition all_miss : Collaborators :=
  scripted (Returned None) (Returned tt) (Returned None) (Returned (Some ""))
    (Raised (mkExc "TimeoutError" "completion timed out")) (Returned (Some []))
    (Returned None) (Returned None).

(** Second scenario of section 8: the completion service answers. *)
Definition ai_answers : Collaborators :=
  scripted (Returned None) (Returned tt) (Returned None) (Returned None)
    (Returned (Some world_cup_answer)) (Returned (Some snippets))
    (Returned None) (Returned None).

Definition cache_hit : Collaborators :=
  scripted (Returned (Some world_cup_answer)) (Returned tt) (Returned None)
    (Returned None) (Returned None) (Returned None) (Returned None)
    (Returned None).


(** [{"is_valid": true}]: a verdict without its [reason]. *)
Definition verdict_without_reason : string :=
  "{" ++ dq ++ "is_valid" ++ dq ++ ": true}".

(** [{"is_valid": "no", "reason": "outdated"}]: [is_valid] is a string. *)
Definition verdict_with_string : string :=
  "{" ++ dq ++ "is_valid" ++ dq ++ ": " ++ dq ++ "no" ++ dq ++ ", " ++
  dq ++ "reason" ++ dq ++ ": " ++ dq ++ "outdated" ++ dq ++ "}".

(** [{"is_valid": true, "reason": "consistent"}] *)
Definition verdict_approving : string :=
  "{" ++ dq ++ "is_valid" ++ dq ++ ": true, " ++
  dq ++ "reason" ++ dq ++ ": " ++ dq ++ "consistent" ++ dq ++ "}".

Definition verdict_prose : string := "The answer looks valid.".

(** The sports expert as the /ask handler holds it, for the examples:
    [get_response] of [expert.py] on a question that is a string.  The
    handler passes on any JSON value; the pipeline above is typed on [str]
    as annotated, so a question of another type is refused here (no
    example uses one). *)
Definition sports_expert_of (env : Collaborators) (question : JSON)
  : M (option string) :=
  match question with
  | JStr query => get_response JsonText.loads env query
  | _ => raise (mkExc "TypeError" "the question is not a string")
  end.

(** The objects of the /ask handler after a successful start-up: the
    sports expert runs [get_response] on [env], and the selector sends
    every question to it. *)
Definition sports_only (env : Collaborators) : App.Globals :=
  {| App.sports_expert := Some (sports_expert_of env);
     App.food_expert := Some (fun _ => ret None);
     App.ai_expert := Some (fun _ => ret None);
     App.sudostar_expert := Some (fun _ => ret None);
     App.expert_selector := Some (fun _ => ret (Some "sports", None)) |}.

(** A request whose body is [{"question": question}]. *)
Definition request_of (question : string) : Trace -> Outcome JSON :=
  fun _ => Returned (JDict [("question", JStr question)]).

(** The calls of a pipeline before it enters the web-search stage, when
    the first three stages made all their calls. *)
Definition before_web_search (query : string) : Trace :=
  [EvCacheGet query; EvGetKnowledgeBase; EvFindAnswer query;
   EvSearchUrlSources query; EvGetCompletion ai_system_prompt query].

(** The objects of the /ask handler with a selector that always gives
    [selection], the sports expert running on [env] and the three other
    experts answering by their name. *)
Definition selecting (selection : option string * option string)
    (env : Collaborators) : App.Globals :=
  {| App.sports_expert := Some (sports_expert_of env);
     App.food_expert := Some (fun _ => ret (Some "food"));
     App.ai_expert := Some (fun _ => ret (Some "ai"));
     App.sudostar_expert := Some (fun _ => ret (Some "sudostar"));
     App.expert_selector := Some (fun _ => ret selection) |}.

(** A selector that fails. *)
Definition selector_down : App.Globals :=
  {| App.sports_expert := Some (sports_expert_of all_miss);
     App.food_expert := Some (fun _ => ret None);
     App.ai_expert := Some (fun _ => ret None);
     App.sudostar_expert := Some (fun _ => ret None);
     App.expert_selector :=
       Some (fun _ => raise (mkExc "RuntimeError" "classifier failed")) |}.

(** A configuration with both cache settings of the sports expert, and
    one that lacks [cache_ttl]. *)
Definition config_full : JSON :=
  JDict [("experts",
          JDict [("sports",
                  JDict [("cache_enabled", JBool true);
                         ("cache_ttl", JInt 3600)])])].

Definition config_without_ttl : JSON :=
  JDict [("experts",
          JDict [("sports", JDict [("cache_enabled", JBool true)])])].

(** Services that never fail and hand out the collaborators of
    [ai_answers]. *)
Definition services_ok : Services :=
  {| BaseExpert_init := fun _ => Returned tt;
     OpenAIClient := Returned (get_completion ai_answers);
     WebSearchClient := Returned (web_search_search ai_answers);
     Cache := fun _ _ => Returned (cache_get ai_answers, cache_set ai_answers);
     local_get_knowledge_base := get_knowledge_base ai_answers;
     local_find_answer := find_answer ai_answers;
     url_search_url_sources := search_url_sources ai_answers |}.

Definition startup_with (config : JSON) : App.Startup :=
  {| App.load_config := Returned config;
     App.services := services_ok;
     App.bound_get_response := sports_expert_of;
     App.FoodExpert := fun _ => Returned (fun _ => ret (Some "food"));
     App.AIExpert := fun _ => Returned (fun _ => ret (Some "ai"));
     App.SudoStarExpert := fun _ => Returned (fun _ => ret (Some "sudostar"));
     App.ExpertSelector := Returned (fun _ => ret (Some "sports", None)) |}.

End Scenario.

(** * Properties *)

Import SportsExpert.

Local Open Scope list_scope.


(** ** The monad, one step at a time *)

Lemma bind_returned (A B : Type) (m : M A) (k : A -> M B) h a es :
  m h = (Returned a, es) ->
  bind m k h = (fst (k a (h ++ es)), es ++ snd (k a (h ++ es))).
Proof.
  intros Hm. unfold bind. rewrite Hm. now destruct (k a (h ++ es)).
Qed.

Lemma bind_raised (A B : Type) (m : M A) (k : A -> M B) h e es :
  m h = (Raised e, es) -> bind m k h = (Raised e, es).
Proof.
  intros Hm. unfold bind. now rewrite Hm.
Qed.

Lemma try_except_returned (A : Type) (body : M A) handler h a es :
  body h = (Returned a, es) -> try_except body handler h = (Returned a, es).
Proof.
  intros Hb. unfold try_except. now rewrite Hb.
Qed.

Lemma try_except_raised (A : Type) (body : M A) handler h e es :
  body h = (Raised e, es) ->
  try_except body handler h
  = (fst (handler e (h ++ es)), es ++ snd (handler e (h ++ es))).
Proof.
  intros Hb. unfold try_except. rewrite Hb. now destruct (handler e (h ++ es)).
Qed.

Lemma truthy_answer (a : option string) :
  truthy a = true -> exists s, a = Some s /\ s <> EmptyString.
Proof.
  destruct a as [[|c s]|]; cbn; try discriminate.
  intros _. exists (String c s). split; [reflexivity | discriminate].
Qed.

(** Unfolds the monad and splits on every collaborator answer met. *)
Ltac run_monad :=
  cbv [bind try_except call ret raise lift logger_error] in *.

Ltac split_match :=
  match goal with
  | |- context [match ?x with _ => _ end] =>
      lazymatch x with
      | context [match _ with _ => _ end] => fail
      | _ => destruct x eqn:?
      end
  end.

Ltac run_all := run_monad; repeat (split_match; cbn [fst snd app] in *).

Section PipelineFacts.

Variable json_loads : string -> Outcome JSON.
Variable env : Collaborators.

Notation stage_helper := (stage_helper json_loads env).
Notation misses := (misses json_loads env).
Notation run_stages := (run_stages json_loads env).
Notation get_response := (get_response json_loads env).
Notation get_response_body := (get_response_body json_loads env).
Notation _perform_web_search := (_perform_web_search json_loads env).
Notation check_validation := (check_validation json_loads).
Notation validation_reached := (validation_reached env).
Notation approves := (approves json_loads).
Notation no_verdict := (no_verdict json_loads).
Notation stored := (stored env).

(** *** The stage helpers *)

Lemma check_validation_spec validation response h :
  check_validation validation response h
  = (Returned (if approves validation then Return response else Next), []).
Proof.
  unfold SportsExpert.check_validation, SportsExpert.approves.
  run_monad.
  destruct (py_json_loads json_loads validation) as [v|e]; [|reflexivity].
  destruct v; cbn; try reflexivity.
  destruct (lookup "is_valid" kvs) as [v|]; cbn; [|reflexivity].
  now destruct (truthy v).
Qed.

Lemma stage_helper_returns s query h :
  exists answer es, stage_helper s query h = (Returned answer, es).
Proof.
  destruct s; cbn [SportsExpert.stage_helper].
  - unfold _check_local_knowledge. run_all; eauto.
  - unfold _check_url_sources. run_all; eauto.
  - unfold _generate_ai_response. run_all; eauto.
  - unfold SportsExpert._perform_web_search. run_monad.
    repeat first [ rewrite check_validation_spec
                 | split_match; cbn [fst snd app] in * ]; eauto.
Qed.

Lemma web_search_validated query h results response validation :
  validation_reached query h results response validation ->
  _perform_web_search query h
  = (Returned (if approves validation then response else None),
     validation_calls query results response).
Proof.
  intros (Hsearch & Hresults & Hsynth & Hresponse & Hvalidation).
  unfold SportsExpert._perform_web_search, validation_calls. run_monad.
  rewrite Hsearch. destruct results as [|r results]; [discriminate|].
  cbn [app]. rewrite Hsynth, Hresponse. cbn [app].
  rewrite <- app_assoc. cbn [app].
  rewrite Hvalidation, check_validation_spec.
  now destruct (approves validation).
Qed.

Lemma stage_helper_no_cache_write s query h o es :
  stage_helper s query h = (o, es) -> existsb is_cache_write es = false.
Proof.
  destruct s; cbn [SportsExpert.stage_helper].
  - unfold _check_local_knowledge. run_all; intros [= <- <-]; reflexivity.
  - unfold _check_url_sources. run_all; intros [= <- <-]; reflexivity.
  - unfold _generate_ai_response. run_all; intros [= <- <-]; reflexivity.
  - unfold SportsExpert._perform_web_search. run_monad.
    repeat first [ rewrite check_validation_spec
                 | split_match; cbn [fst snd app] in * ];
      intros [= <- <-]; reflexivity.
Qed.

(** *** The driver, by induction on the list of stages *)

Lemma misses_cons s rest query h es :
  misses (s :: rest) query h = Some es ->
  exists answer es1 es2,
    stage_helper s query h = (Returned answer, es1) /\
    truthy answer = false /\
    misses rest query (h ++ es1) = Some es2 /\
    es = es1 ++ es2.
Proof.
  cbn [SportsExpert.misses].
  destruct (stage_helper s query h) as [[answer|e] es1]; [|discriminate].
  destruct (truthy answer) eqn:Hanswer; [discriminate|].
  destruct (misses rest query (h ++ es1)) as [es2|] eqn:Hrest; [|discriminate].
  intros [= <-]. exists answer, es1, es2. repeat split; trivial.
Qed.

Lemma misses_no_cache_write stages query : forall h es,
  misses stages query h = Some es -> existsb is_cache_write es = false.
Proof.
  induction stages as [|s rest IH]; intros h es.
  - now intros [= <-].
  - intros (answer & es1 & es2 & Hs & _ & Hrest & ->)%misses_cons.
    rewrite existsb_app, (stage_helper_no_cache_write _ _ _ Hs).
    exact (IH _ _ Hrest).
Qed.

Lemma run_stages_exhausted stages query : forall h es,
  misses stages query h = Some es ->
  run_stages stages query h = (Returned (Some fallback_message), es).
Proof.
  induction stages as [|s rest IH]; intros h es.
  - now intros [= <-].
  - intros (answer & es1 & es2 & Hs & Hanswer & Hrest & ->)%misses_cons.
    cbn [SportsExpert.run_stages].
    rewrite (bind_returned _ _ _ Hs), Hanswer, (IH _ _ Hrest).
    reflexivity.
Qed.

Lemma run_stages_first_answer pre s post query : forall h es_pre answer es,
  misses pre query h = Some es_pre ->
  stage_helper s query (h ++ es_pre) = (Returned answer, es) ->
  truthy answer = true ->
  run_stages (pre ++ s :: post) query h
  = (match cache_set env query answer (h ++ es_pre ++ es) with
     | Returned _ => Returned answer
     | Raised e => Raised e
     end, es_pre ++ es ++ [EvCacheSet query answer]).
Proof.
  induction pre as [|p pre IH]; intros h es_pre answer es.
  - intros [= <-] Hs Hanswer. rewrite app_nil_r in Hs.
    cbn [app SportsExpert.run_stages].
    rewrite (bind_returned _ _ _ Hs), Hanswer. run_monad.
    now destruct (cache_set env query answer (h ++ es)).
  - intros (a1 & es1 & es2 & Hp & Ha1 & Hrest & ->)%misses_cons Hs Hanswer.
    rewrite app_assoc in Hs.
    cbn [app SportsExpert.run_stages].
    rewrite (bind_returned _ _ _ Hp), Ha1, (IH _ _ _ _ Hrest Hs Hanswer).
    cbn [fst snd]. now rewrite <- !app_assoc.
Qed.

Lemma run_stages_raised stages query : forall h e es,
  run_stages stages query h = (Raised e, es) ->
  exists pre answer,
    es = pre ++ [EvCacheSet query answer] /\
    truthy answer = true /\
    cache_set env query answer (h ++ pre) = Raised e /\
    existsb is_cache_write pre = false.
Proof.
  induction stages as [|s rest IH]; intros h e es.
  - discriminate.
  - cbn [SportsExpert.run_stages].
    destruct (stage_helper_returns s query h)
      as (answer & es1 & Hs).
    rewrite (bind_returned _ _ _ Hs).
    destruct (truthy answer) eqn:Hanswer.
    + run_monad.
      destruct (cache_set env query answer (h ++ es1)) as [u|e'] eqn:Hset;
        cbn; intros [= <- <-].
      exists es1, answer. repeat split; trivial.
      exact (stage_helper_no_cache_write _ _ _ Hs).
    + destruct (run_stages rest query (h ++ es1)) as [o es2] eqn:Hrest.
      cbn. intros [= -> <-].
      destruct (IH _ _ _ Hrest) as (pre & a & -> & Ha & Hset & Hpre).
      exists (es1 ++ pre), a. split; [now rewrite app_assoc|].
      split; [exact Ha|]. split; [now rewrite app_assoc|].
      now rewrite existsb_app, (stage_helper_no_cache_write _ _ _ Hs).
Qed.

(** *** The code against the driver *)

Lemma get_response_body_hit query h cached :
  cache_get env query h = Returned cached ->
  truthy cached = true ->
  get_response_body query h = (Returned cached, [EvCacheGet query]).
Proof.
  intros Hget Hcached. unfold SportsExpert.get_response_body.
  unfold bind at 1. unfold call at 1. now rewrite Hget, Hcached.
Qed.

Lemma get_response_body_miss query h cached :
  cache_get env query h = Returned cached ->
  truthy cached = false ->
  get_response_body query h
  = (fst (run_stages stage_order query (h ++ [EvCacheGet query])),
     EvCacheGet query :: snd (run_stages stage_order query
                                (h ++ [EvCacheGet query]))).
Proof.
  intros Hget Hcached. unfold SportsExpert.get_response_body.
  unfold bind at 1. unfold call at 1. rewrite Hget, Hcached.
  change (run_stages stage_order query (h ++ [EvCacheGet query]))
    with ((local_response <- _check_local_knowledge env query ;;
           if truthy local_response then
             call (EvCacheSet query local_response)
               (cache_set env query local_response) ;;
             ret local_response
           else
           url_response <- _check_url_sources env query ;;
           if truthy url_response then
             call (EvCacheSet query url_response)
               (cache_set env query url_response) ;;
             ret url_response
           else
           ai_response <- _generate_ai_response env query ;;
           if truthy ai_response then
             call (EvCacheSet query ai_response)
               (cache_set env query ai_response) ;;
             ret ai_response
           else
           web_response <- SportsExpert._perform_web_search json_loads env query ;;
           if truthy web_response then
             call (EvCacheSet query web_response)
               (cache_set env query web_response) ;;
             ret web_response
           else ret (Some fallback_message)) (h ++ [EvCacheGet query])).
  match goal with |- (let (o, es') := ?x in _) = _ => now destruct x end.
Qed.

Lemma get_response_of_body_returned query h answer es :
  get_response_body query h = (Returned answer, es) ->
  get_response query h = (Returned answer, es).
Proof.
  intros Hbody. unfold SportsExpert.get_response.
  now rewrite (try_except_returned _ _ _ Hbody).
Qed.

Lemma get_response_of_body_raised query h e es :
  get_response_body query h = (Raised e, es) ->
  get_response query h
  = (Returned (Some error_message),
     es ++ [EvLoggerError ("Error in get_response: " ++ exc_str e)%string]).
Proof.
  intros Hbody. unfold SportsExpert.get_response.
  now rewrite (try_except_raised _ _ _ Hbody).
Qed.

Lemma get_response_body_raised query h e es :
  get_response_body query h = (Raised e, es) ->
  (es = [EvCacheGet query] /\ cache_get env query h = Raised e) \/
  (exists pre answer,
      es = pre ++ [EvCacheSet query answer] /\
      truthy answer = true /\
      cache_set env query answer (h ++ pre) = Raised e /\
      existsb is_cache_write pre = false).
Proof.
  destruct (cache_get env query h) as [cached|e'] eqn:Hget.
  - destruct (truthy cached) eqn:Hcached.
    + now rewrite (get_response_body_hit _ _ Hget Hcached).
    + rewrite (get_response_body_miss _ _ Hget Hcached).
      destruct (run_stages stage_order query (h ++ [EvCacheGet query]))
        as [o es'] eqn:Hrun.
      cbn [fst snd]. intros [= -> <-].
      destruct (run_stages_raised _ _ _ Hrun) as (pre & a & -> & Ha & Hset & Hpre).
      right. exists (EvCacheGet query :: pre), a.
      rewrite <- app_assoc in Hset. now repeat split.
  - unfold SportsExpert.get_response_body.
    unfold bind at 1. unfold call at 1. rewrite Hget.
    intros [= <- <-]. now left.
Qed.

Lemma get_response_first_answer pre s post query h cached es_pre answer es :
  cache_get env query h = Returned cached ->
  truthy cached = false ->
  stage_order = pre ++ s :: post ->
  misses pre query (h ++ [EvCacheGet query]) = Some es_pre ->
  stage_helper s query (h ++ [EvCacheGet query] ++ es_pre)
  = (Returned answer, es) ->
  truthy answer = true ->
  get_response query h
  = (fst (stored query answer (h ++ [EvCacheGet query] ++ es_pre ++ es)),
     [EvCacheGet query] ++ es_pre ++ es
     ++ snd (stored query answer (h ++ [EvCacheGet query] ++ es_pre ++ es))).
Proof.
  intros Hget Hcached Horder Hpre Hs Hanswer.
  rewrite app_assoc in Hs.
  pose proof (run_stages_first_answer pre s post query _ Hpre Hs Hanswer)
    as Hrun.
  rewrite <- Horder, <- !app_assoc in Hrun.
  pose proof (get_response_body_miss _ _ Hget Hcached) as Hbody.
  rewrite Hrun in Hbody. cbn [fst snd] in Hbody.
  unfold SportsExpert.stored.
  destruct (cache_set env query answer
              (h ++ [EvCacheGet query] ++ es_pre ++ es)) as [u|e].
  - rewrite (get_response_of_body_returned _ _ Hbody). cbn [fst snd app].
    reflexivity.
  - rewrite (get_response_of_body_raised _ _ Hbody). cbn [fst snd app].
    now rewrite <- !app_assoc.
Qed.

Lemma get_response_exhausted query h cached es :
  cache_get env query h = Returned cached ->
  truthy cached = false ->
  misses stage_order query (h ++ [EvCacheGet query]) = Some es ->
  get_response query h
  = (Returned (Some fallback_message), EvCacheGet query :: es).
Proof.
  intros Hget Hcached Hmiss.
  apply get_response_of_body_returned.
  rewrite (get_response_body_miss _ _ Hget Hcached).
  now rewrite (run_stages_exhausted _ _ _ Hmiss).
Qed.

Lemma get_response_returns query h :
  exists s es, get_response query h = (Returned (Some s), es) /\
               s <> EmptyString.
Proof.
  destruct (get_response_body query h) as [[answer|e] es] eqn:Hbody.
  - rewrite (get_response_of_body_returned _ _ Hbody).
    destruct (cache_get env query h) as [cached|e'] eqn:Hget.
    + destruct (truthy cached) eqn:Hcached.
      * rewrite (get_response_body_hit _ _ Hget Hcached) in Hbody.
        injection Hbody as <- <-.
        destruct (truthy_answer _ Hcached) as (s & -> & Hs). eauto.
      * rewrite (get_response_body_miss _ _ Hget Hcached) in Hbody.
        revert Hbody. generalize (h ++ [EvCacheGet query]). intros h'.
        destruct (run_stages stage_order query h') as [o es'] eqn:Hrun.
        cbn [fst snd]. intros [= -> <-]. revert h' es' Hrun.
        induction stage_order as [|st rest IH]; intros h' es'.
        -- cbn. intros [= <- <-]. eexists _, _. split; [reflexivity|].
           discriminate.
        -- cbn [SportsExpert.run_stages].
           destruct (stage_helper_returns st query h')
             as (a & es1 & Hst).
           rewrite (bind_returned _ _ _ Hst).
           destruct (truthy a) eqn:Ha.
           ++ run_monad. destruct (cache_set env query a (h' ++ es1)); cbn;
                intros [= <- <-].
              destruct (truthy_answer _ Ha) as (s & -> & Hs). eauto.
           ++ destruct (run_stages rest query (h' ++ es1)) as [o es2] eqn:Hrest.
              cbn. intros [= -> <-].
              destruct (IH _ _ Hrest) as (s & es3 & [= -> _] & Hs). eauto.
    + unfold SportsExpert.get_response_body in Hbody.
      unfold bind at 1 in Hbody. unfold call at 1 in Hbody.
      rewrite Hget in Hbody. discriminate.
  - rewrite (get_response_of_body_raised _ _ Hbody).
    eexists _, _. split; [reflexivity | discriminate].
Qed.

Lemma misses_app pre post query : forall h es_pre es_post,
  misses pre query h = Some es_pre ->
  misses post query (h ++ es_pre) = Some es_post ->
  misses (pre ++ post) query h = Some (es_pre ++ es_post).
Proof.
  induction pre as [|p pre IH]; intros h es_pre es_post.
  - intros [= <-]. now rewrite app_nil_r.
  - intros (a & es1 & es2 & Hp & Ha & Hrest & ->)%misses_cons Hpost.
    rewrite app_assoc in Hpost.
    cbn [app SportsExpert.misses].
    rewrite Hp, Ha, (IH _ _ _ Hrest Hpost). now rewrite app_assoc.
Qed.

Lemma no_verdict_not_approved validation :
  no_verdict validation = true -> approves validation = false.
Proof.
  unfold SportsExpert.no_verdict, SportsExpert.approves.
  destruct (py_json_loads json_loads validation) as [[]|]; trivial.
  now destruct (lookup "is_valid" kvs).
Qed.

(** *** The claims on [get_response] *)

(** C1. For a query that misses the cache, [get_response] tries the stages
    in the fixed order LOCAL_KB, URL_SOURCES, AI_GENERATE, WEB_SEARCH,
    FALLBACK.  Whatever stage [s] of that order is the first to give a
    non-empty answer, the calls made are the cache lookup, those of the
    stages before [s] in order, those of [s], and then [cache.set] with
    the answer: no later stage is called, and the answer is returned once
    [cache.set] has returned (if [cache.set] raises, the top-level handler
    answers instead).  When all four stages miss, the fallback message is
    returned. *)
Theorem get_response_fixed_order query h cached :
  cache_get env query h = Returned cached ->
  truthy cached = false ->
  (forall pre s post es_pre answer es,
      stage_order = pre ++ s :: post ->
      misses pre query (h ++ [EvCacheGet query]) = Some es_pre ->
      stage_helper s query (h ++ [EvCacheGet query] ++ es_pre)
      = (Returned answer, es) ->
      truthy answer = true ->
      get_response query h
      = (match cache_set env query answer
                 (h ++ [EvCacheGet query] ++ es_pre ++ es) with
         | Returned _ => Returned answer
         | Raised _ => Returned (Some error_message)
         end,
         [EvCacheGet query] ++ es_pre ++ es ++
         EvCacheSet query answer ::
         match cache_set env query answer
                 (h ++ [EvCacheGet query] ++ es_pre ++ es) with
         | Returned _ => []
         | Raised e =>
             [EvLoggerError ("Error in get_response: " ++ exc_str e)%string]
         end)) /\
  (forall es,
      misses stage_order query (h ++ [EvCacheGet query]) = Some es ->
      get_response query h
      = (Returned (Some fallback_message), EvCacheGet query :: es)).
Proof.
  intros Hget Hcached. split.
  - intros pre s post es_pre answer es Horder Hpre Hs Hanswer.
    rewrite (get_response_first_answer _ _ _ _ _ Hget Hcached Horder Hpre Hs
               Hanswer).
    unfold SportsExpert.stored.
    now destruct (cache_set env query answer
                    (h ++ [EvCacheGet query] ++ es_pre ++ es)).
  - intros es Hmiss. exact (get_response_exhausted _ _ Hget Hcached Hmiss).
Qed.

(** C3. When the cache lookup returns a non-empty answer, [get_response]
    returns it at once: the lookup is the only call made, so no stage is
    invoked and nothing is written to the cache. *)
Theorem get_response_cache_hit query h answer :
  cache_get env query h = Returned (Some answer) ->
  answer <> EmptyString ->
  get_response query h = (Returned (Some answer), [EvCacheGet query]).
Proof.
  intros Hget Hanswer. apply get_response_of_body_returned.
  apply (get_response_body_hit _ _ Hget).
  destruct answer; [contradiction | reflexivity].
Qed.

(** C5. [get_response] never returns an empty string (nor [None], nor
    raises), and when the cache and every substantive stage miss or fail
    it returns the fixed fallback message. *)
Theorem get_response_never_empty :
  (forall query h,
      exists answer es,
        get_response query h = (Returned (Some answer), es) /\
        answer <> EmptyString) /\
  (forall query h cached es,
      cache_get env query h = Returned cached ->
      truthy cached = false ->
      misses stage_order query (h ++ [EvCacheGet query]) = Some es ->
      fst (get_response query h) = Returned (Some fallback_message)).
Proof.
  split.
  - exact get_response_returns.
  - intros query h cached es Hget Hcached Hmiss.
    now rewrite (get_response_exhausted _ _ Hget Hcached Hmiss).
Qed.

(** C6. When all four substantive stages miss or fail, [get_response]
    returns the fixed apology string, and [cache.set] is not called at
    all: neither the apology nor anything else is stored. *)
Theorem get_response_fallback_not_cached query h cached es :
  cache_get env query h = Returned cached ->
  truthy cached = false ->
  misses stage_order query (h ++ [EvCacheGet query]) = Some es ->
  get_response query h
  = (Returned (Some fallback_message), EvCacheGet query :: es) /\
  existsb is_cache_write (EvCacheGet query :: es) = false.
Proof.
  intros Hget Hcached Hmiss. split.
  - exact (get_response_exhausted _ _ Hget Hcached Hmiss).
  - exact (misses_no_cache_write _ _ _ Hmiss).
Qed.


(** *** The claims on the validation sub-step and on failures *)

(** C2, amended.  In the web-search stage, when the validation response
    does not decode as JSON, or decodes to something that is not an
    object, or to an object without the [is_valid] field, the stage yields
    no answer, and a pipeline that got there (nothing cached, the three
    earlier stages missed) returns the fallback message: such a response
    is never treated as approval.  The [reason] field is not looked at. *)
Theorem unreadable_verdict_fails_closed query h results response validation :
  validation_reached query h results response validation ->
  no_verdict validation = true ->
  _perform_web_search query h
  = (Returned None, validation_calls query results response) /\
  (forall h0 cached es,
      h = h0 ++ [EvCacheGet query] ++ es ->
      cache_get env query h0 = Returned cached ->
      truthy cached = false ->
      misses [LOCAL_KB; URL_SOURCES; AI_GENERATE] query
        (h0 ++ [EvCacheGet query]) = Some es ->
      get_response query h0
      = (Returned (Some fallback_message),
         [EvCacheGet query] ++ es ++ validation_calls query results response)).
Proof.
  intros Hreached Hno.
  pose proof (web_search_validated Hreached) as Hweb.
  rewrite (no_verdict_not_approved _ Hno) in Hweb.
  split; [exact Hweb|].
  intros h0 cached es -> Hget Hcached Hmiss.
  apply (get_response_exhausted _ _ Hget Hcached).
  apply (misses_app [LOCAL_KB; URL_SOURCES; AI_GENERATE] [WEB_SEARCH] _ _ Hmiss).
  rewrite <- app_assoc. cbn [SportsExpert.misses SportsExpert.stage_helper].
  rewrite Hweb. cbv beta iota delta [truthy Truthy_option].
  now rewrite app_nil_r.
Qed.

(** C4, amended.  In the web-search stage the validation response is
    decoded as JSON and its [is_valid] entry is judged as a Python
    condition: the synthesized answer is returned exactly when the
    response decodes to an object whose [is_valid] value is true in that
    sense ([True], a non-zero number, a non-empty string, list or object),
    and the stage yields no answer otherwise.  For a boolean [is_valid]
    that is: exactly when it is [true]. *)
Theorem verdict_judged_by_truth_value query h results response validation :
  validation_reached query h results response validation ->
  _perform_web_search query h
  = (Returned (if approves validation then response else None),
     validation_calls query results response) /\
  (approves validation = true <->
   exists v, is_valid_entry json_loads validation = Some v /\
             truthy v = true) /\
  (forall b, is_valid_entry json_loads validation = Some (JBool b) ->
             approves validation = b).
Proof.
  intros Hreached. split; [exact (web_search_validated Hreached)|].
  unfold SportsExpert.approves, is_valid_entry.
  destruct (py_json_loads json_loads validation) as [[]|];
    try (split; [split; [discriminate | now intros (v & [=] & _)]
                | discriminate]).
  destruct (lookup "is_valid" kvs) as [v|].
  - split; [split|].
    + intros Hv. now exists v.
    + now intros (v' & [= <-] & Hv).
    + now intros b [= ->].
  - split; [split; [discriminate | now intros (v & [=] & _)] | discriminate].
Qed.

(** C7, amended.  No stage helper ever raises.  A failure of a
    collaborator in LOCAL_KB, URL_SOURCES, AI_GENERATE or WEB_SEARCH (the
    knowledge base, the URL search, the completion service in each of
    its three requests, the search service) is caught inside the helper,
    logged, and turned into no answer.  A validation response that cannot
    be read as a verdict is caught by the inner handler and turned into no
    answer as well, but nothing is logged for it. *)
Theorem stage_failures_contained query h :
  (forall s, exists answer es, stage_helper s query h = (Returned answer, es)) /\
  (forall e,
      get_knowledge_base env h = Raised e ->
      _check_local_knowledge env query h
      = (Returned None,
         [EvGetKnowledgeBase;
          EvLoggerError ("Error checking local knowledge: " ++ exc_str e)%string])) /\
  (forall kb e,
      get_knowledge_base env h = Returned kb ->
      find_answer env query (h ++ [EvGetKnowledgeBase]) = Raised e ->
      _check_local_knowledge env query h
      = (Returned None,
         [EvGetKnowledgeBase; EvFindAnswer query;
          EvLoggerError ("Error checking local knowledge: " ++ exc_str e)%string])) /\
  (forall e,
      search_url_sources env query h = Raised e ->
      _check_url_sources env query h
      = (Returned None,
         [EvSearchUrlSources query;
          EvLoggerError ("Error checking URL sources: " ++ exc_str e)%string])) /\
  (forall e,
      get_completion env ai_system_prompt query h = Raised e ->
      _generate_ai_response env query h
      = (Returned None,
         [EvGetCompletion ai_system_prompt query;
          EvLoggerError ("Error generating AI response: " ++ exc_str e)%string])) /\
  (forall e,
      web_search_search env (search_query_of query) h = Raised e ->
      _perform_web_search query h
      = (Returned None,
         [EvWebSearch (search_query_of query);
          EvLoggerError ("Error in web search: " ++ exc_str e)%string])) /\
  (forall results e,
      web_search_search env (search_query_of query) h
      = Returned (Some results) ->
      truthy results = true ->
      get_completion env web_system_prompt
        (synthesis_prompt query (context_of results))
        (h ++ [EvWebSearch (search_query_of query)]) = Raised e ->
      _perform_web_search query h
      = (Returned None,
         [EvWebSearch (search_query_of query);
          EvGetCompletion web_system_prompt
            (synthesis_prompt query (context_of results));
          EvLoggerError ("Error in web search: " ++ exc_str e)%string])) /\
  (forall results response validation,
      validation_reached query h results response validation ->
      no_verdict validation = true ->
      _perform_web_search query h
      = (Returned None, validation_calls query results response) /\
      existsb is_log (validation_calls query results response) = false) /\
  (forall results response e,
      web_search_search env (search_query_of query) h
      = Returned (Some results) ->
      truthy results = true ->
      get_completion env web_system_prompt
        (synthesis_prompt query (context_of results))
        (h ++ [EvWebSearch (search_query_of query)]) = Returned response ->
      truthy response = true ->
      get_completion env validation_prompt
        (validation_request response (context_of results))
        (h ++ [EvWebSearch (search_query_of query);
               EvGetCompletion web_system_prompt
                 (synthesis_prompt query (context_of results))]) = Raised e ->
      _perform_web_search query h
      = (Returned None,
         validation_calls query results response ++
         [EvLoggerError ("Error in web search: " ++ exc_str e)%string])).
Proof.
  repeat apply conj.
  - intros s. apply stage_helper_returns.
  - intros e Hkb. unfold _check_local_knowledge. run_monad. now rewrite Hkb.
  - intros kb e Hkb Hfind. unfold _check_local_knowledge. run_monad.
    now rewrite Hkb, Hfind.
  - intros e Hurl. unfold _check_url_sources. run_monad. now rewrite Hurl.
  - intros e Hai. unfold _generate_ai_response. run_monad. now rewrite Hai.
  - intros e Hsearch. unfold SportsExpert._perform_web_search. run_monad.
    now rewrite Hsearch.
  - intros results e Hsearch Hresults Hsynth.
    unfold SportsExpert._perform_web_search. run_monad.
    rewrite Hsearch. destruct results as [|r results]; [discriminate|].
    cbn [app]. now rewrite Hsynth.
  - intros results response validation Hreached Hno.
    rewrite (web_search_validated Hreached).
    now rewrite (no_verdict_not_approved _ Hno).
  - intros results response e Hsearch Hresults Hsynth Hresponse Hvalidation.
    unfold SportsExpert._perform_web_search, validation_calls. run_monad.
    rewrite Hsearch. destruct results as [|r results]; [discriminate|].
    cbn [app]. rewrite Hsynth, Hresponse. cbn [app].
    rewrite <- app_assoc. cbn [app]. now rewrite Hvalidation.
Qed.


End PipelineFacts.

(** ** The /ask handler *)

Section AskFacts.

Import App.

Variable g : Globals.
Variable get_json : Trace -> Outcome JSON.

Lemma error_meets_contract error code :
  In code error_codes ->
  forall st, st <> 200%Z -> meets_contract (mkResponse (ErrorBody error code) st).
Proof.
  intros Hcode st Hst. now split.
Qed.

Lemma success_meets_contract (response : option string) expert_type :
  negb (truthy response) = false ->
  meets_contract (mkResponse (SuccessBody response expert_type) 200).
Proof.
  intros Hresponse%negb_false_iff. split; [reflexivity|].
  exact (truthy_answer _ Hresponse).
Qed.

(** C9. Whatever the request, the selector and the experts do, the /ask
    handler returns (it never raises), and what it returns is either a
    success payload whose answer is a non-empty string or a structured
    error carrying one of the machine-readable codes; in particular a
    non-empty question never gets an empty or null answer in a success
    response. *)
Theorem ask_contract h :
  exists r es, ask g get_json h = (Returned r, es) /\ meets_contract r.
Proof.
  unfold ask, get_response_of, print. run_monad.
  repeat (split_match; cbn [fst snd app] in * );
    eexists _, _; (split; [reflexivity|]);
    first [ now apply success_meets_contract
          | apply error_meets_contract; cbn; intuition (auto; discriminate) ].
Qed.

End AskFacts.

(** ** The claims at concrete inputs *)

Import Scenario.

(** The second scenario of section 8: the completion service answers, the
    answer is stored and returned, the web search is never called. *)
Lemma get_response_fixed_order_witness :
  get_response JsonText.loads ai_answers world_cup_query []
  = (Returned (Some world_cup_answer),
     [EvCacheGet world_cup_query; EvGetKnowledgeBase;
      EvFindAnswer world_cup_query; EvSearchUrlSources world_cup_query;
      EvGetCompletion ai_system_prompt world_cup_query;
      EvCacheSet world_cup_query (Some world_cup_answer)]).
Proof.
  exact (proj1 (get_response_fixed_order JsonText.loads ai_answers
                  world_cup_query [] (cached:=None) eq_refl eq_refl)
           [LOCAL_KB; URL_SOURCES] AI_GENERATE [WEB_SEARCH]
           [EvGetKnowledgeBase; EvFindAnswer world_cup_query;
            EvSearchUrlSources world_cup_query]
           (Some world_cup_answer)
           [EvGetCompletion ai_system_prompt world_cup_query]
           eq_refl eq_refl eq_refl eq_refl).
Defined.

Lemma get_response_cache_hit_witness :
  get_response JsonText.loads cache_hit world_cup_query []
  = (Returned (Some world_cup_answer), [EvCacheGet world_cup_query]).
Proof.
  apply get_response_cache_hit; [reflexivity | discriminate].
Defined.

Lemma get_response_never_empty_witness :
  fst (get_response JsonText.loads all_miss world_cup_query [])
  = Returned (Some fallback_message).
Proof.
  apply (proj2 (get_response_never_empty JsonText.loads all_miss)
           world_cup_query [] None
           [EvGetKnowledgeBase; EvFindAnswer world_cup_query;
            EvSearchUrlSources world_cup_query;
            EvGetCompletion ai_system_prompt world_cup_query;
            EvLoggerError "Error generating AI response: completion timed out";
            EvWebSearch (search_query_of world_cup_query)]);
    reflexivity.
Defined.

Lemma get_response_fallback_not_cached_witness :
  get_response JsonText.loads all_miss world_cup_query []
  = (Returned (Some fallback_message),
     [EvCacheGet world_cup_query; EvGetKnowledgeBase;
      EvFindAnswer world_cup_query; EvSearchUrlSources world_cup_query;
      EvGetCompletion ai_system_prompt world_cup_query;
      EvLoggerError "Error generating AI response: completion timed out";
      EvWebSearch (search_query_of world_cup_query)]).
Proof.
  apply (get_response_fallback_not_cached JsonText.loads all_miss
           world_cup_query [] (cached:=None)); reflexivity.
Defined.


Lemma validation_reached_web_decides validation :
  validation_reached (web_decides validation) world_cup_query
    (before_web_search world_cup_query) snippets (Some world_cup_answer)
    validation.
Proof.
  repeat split.
Qed.

(** Prose instead of JSON: the stage gives no answer and the pipeline
    ends in the fallback message. *)
Lemma unreadable_verdict_fails_closed_witness :
  get_response JsonText.loads (web_decides (Some verdict_prose))
    world_cup_query []
  = (Returned (Some fallback_message),
     before_web_search world_cup_query ++
     validation_calls world_cup_query snippets (Some world_cup_answer)).
Proof.
  apply (proj2 (unreadable_verdict_fails_closed JsonText.loads
                  (validation_reached_web_decides (Some verdict_prose))
                  eq_refl)
           [] None
           [EvGetKnowledgeBase; EvFindAnswer world_cup_query;
            EvSearchUrlSources world_cup_query;
            EvGetCompletion ai_system_prompt world_cup_query]);
    reflexivity.
Defined.

(** C2 as stated fails: [{"is_valid": true}] cannot be read as a structure
    with both fields, the [reason] being absent, and yet the stage
    returns the synthesized answer and the pipeline does not fall through
    to the fallback. *)
Lemma verdict_without_reason_is_approved :
  has_both_fields JsonText.loads (Some verdict_without_reason) = false /\
  _perform_web_search JsonText.loads
    (web_decides (Some verdict_without_reason)) world_cup_query
    (before_web_search world_cup_query)
  = (Returned (Some world_cup_answer),
     validation_calls world_cup_query snippets (Some world_cup_answer)) /\
  fst (get_response JsonText.loads (web_decides (Some verdict_without_reason))
         world_cup_query [])
  = Returned (Some world_cup_answer).
Proof.
  repeat split.
Qed.

Lemma verdict_judged_by_truth_value_witness :
  _perform_web_search JsonText.loads (web_decides (Some verdict_approving))
    world_cup_query (before_web_search world_cup_query)
  = (Returned (Some world_cup_answer),
     validation_calls world_cup_query snippets (Some world_cup_answer)).
Proof.
  apply (proj1 (verdict_judged_by_truth_value JsonText.loads
                  (validation_reached_web_decides (Some verdict_approving)))).
Defined.

(** C4 as stated fails: in [{"is_valid": "no", "reason": "outdated"}] the
    [is_valid] value is a string, not a boolean, and the stage treats it
    as approval. *)
Lemma string_verdict_is_approved :
  is_valid_entry JsonText.loads (Some verdict_with_string) = Some (JStr "no") /\
  _perform_web_search JsonText.loads (web_decides (Some verdict_with_string))
    world_cup_query (before_web_search world_cup_query)
  = (Returned (Some world_cup_answer),
     validation_calls world_cup_query snippets (Some world_cup_answer)) /\
  fst (get_response JsonText.loads (web_decides (Some verdict_with_string))
         world_cup_query [])
  = Returned (Some world_cup_answer).
Proof.
  repeat split.
Qed.

Lemma stage_failures_contained_witness :
  _generate_ai_response all_miss world_cup_query []
  = (Returned None,
     [EvGetCompletion ai_system_prompt world_cup_query;
      EvLoggerError "Error generating AI response: completion timed out"]) /\
  _perform_web_search JsonText.loads validation_down world_cup_query
    (before_web_search world_cup_query)
  = (Returned None,
     validation_calls world_cup_query snippets (Some world_cup_answer) ++
     [EvLoggerError "Error in web search: completion timed out"]).
Proof.
  split.
  - apply (proj1 (proj2 (proj2 (proj2 (proj2
             (stage_failures_contained JsonText.loads all_miss
                world_cup_query [])))))
             (mkExc "TimeoutError" "completion timed out")).
    reflexivity.
  - apply (proj2 (proj2 (proj2 (proj2 (proj2 (proj2 (proj2 (proj2
             (stage_failures_contained JsonText.loads validation_down
                world_cup_query (before_web_search world_cup_query)))))))))
             snippets (Some world_cup_answer)
             (mkExc "TimeoutError" "completion timed out"));
      reflexivity.
Defined.

(** C7 as stated fails: a validation response that is not JSON makes
    [json.loads] raise inside the web-search helper; the helper turns it
    into no answer, and not one of its calls is a call of the logger. *)
Lemma unreadable_verdict_is_not_logged :
  py_json_loads JsonText.loads (Some verdict_prose)
  = Raised (JsonText.JSONDecodeError "Expecting value") /\
  fst (_perform_web_search JsonText.loads (web_decides (Some verdict_prose))
         world_cup_query (before_web_search world_cup_query))
  = Returned None /\
  existsb is_log
    (snd (_perform_web_search JsonText.loads
            (web_decides (Some verdict_prose)) world_cup_query
            (before_web_search world_cup_query))) = false.
Proof.
  repeat split.
Qed.



(** * Further properties of the code *)

(** ** The calls of one request *)

Section RequestCalls.

Variable json_loads : string -> Outcome JSON.
Variable env : Collaborators.

Lemma filter_none (p : Event -> bool) es :
  existsb p es = false -> filter p es = [].
Proof.
  induction es as [|ev es IH]; cbn; [reflexivity|].
  destruct (p ev); [discriminate | exact IH].
Qed.

Lemma run_stages_writes stages query : forall h o es,
  run_stages json_loads env stages query h = (o, es) ->
  existsb is_cache_write es = false \/
  exists pre answer,
    es = pre ++ [EvCacheSet query answer] /\
    truthy answer = true /\
    existsb is_cache_write pre = false.
Proof.
  induction stages as [|s rest IH]; intros h o es.
  - intros [= <- <-]. now left.
  - cbn [SportsExpert.run_stages].
    destruct (stage_helper_returns json_loads env s query h)
      as (answer & es1 & Hs).
    rewrite (bind_returned _ _ _ Hs).
    pose proof (stage_helper_no_cache_write _ _ _ _ _ Hs) as Hes1.
    destruct (truthy answer) eqn:Hanswer.
    + run_monad.
      destruct (cache_set env query answer (h ++ es1)); cbn;
        intros [= <- <-]; right; now exists es1, answer.
    + destruct (run_stages json_loads env rest query (h ++ es1))
        as [o' es2] eqn:Hrest.
      cbn. intros [= <- <-].
      destruct (IH _ _ _ Hrest) as [Hnone|(pre & a & -> & Ha & Hpre)].
      * left. now rewrite existsb_app, Hes1.
      * right. exists (es1 ++ pre), a. rewrite app_assoc.
        repeat split; trivial. now rewrite existsb_app, Hes1.
Qed.

(** The calls of [get_response], case by case: a lookup alone, or a lookup
    followed by what the driver did, with the log of the top-level handler
    at the end when an exception reached it. *)
Lemma get_response_calls query h o es :
  get_response json_loads env query h = (o, es) ->
  exists es_run tail,
    es = EvCacheGet query :: es_run ++ tail /\
    (tail = [] \/ exists msg, tail = [EvLoggerError msg]) /\
    (es_run = [] \/
     exists o', run_stages json_loads env stage_order query
                  (h ++ [EvCacheGet query]) = (o', es_run)).
Proof.
  destruct (get_response_body json_loads env query h) as [[answer|e] es'] eqn:Hbody.
  - rewrite (get_response_of_body_returned _ _ _ _ Hbody). intros [= <- <-].
    destruct (cache_get env query h) as [cached|e'] eqn:Hget.
    + destruct (truthy cached) eqn:Hcached.
      * rewrite (get_response_body_hit _ _ _ _ Hget Hcached) in Hbody.
        injection Hbody as <- <-. exists [], []. repeat split; auto.
      * rewrite (get_response_body_miss _ _ _ _ Hget Hcached) in Hbody.
        destruct (run_stages json_loads env stage_order query
                    (h ++ [EvCacheGet query])) as [o' es_run] eqn:Hrun.
        injection Hbody as _ <-. exists es_run, [].
        rewrite app_nil_r. repeat split; eauto.
    + unfold SportsExpert.get_response_body in Hbody.
      unfold bind at 1 in Hbody. unfold call at 1 in Hbody.
      rewrite Hget in Hbody. discriminate.
  - rewrite (get_response_of_body_raised _ _ _ _ Hbody). intros [= <- <-].
    destruct (cache_get env query h) as [cached|e'] eqn:Hget.
    + destruct (truthy cached) eqn:Hcached.
      * now rewrite (get_response_body_hit _ _ _ _ Hget Hcached) in Hbody.
      * rewrite (get_response_body_miss _ _ _ _ Hget Hcached) in Hbody.
        destruct (run_stages json_loads env stage_order query
                    (h ++ [EvCacheGet query])) as [o' es_run] eqn:Hrun.
        injection Hbody as _ <-. eexists es_run, [EvLoggerError _].
        repeat split; eauto.
    + unfold SportsExpert.get_response_body in Hbody.
      unfold bind at 1 in Hbody. unfold call at 1 in Hbody.
      rewrite Hget in Hbody. injection Hbody as _ <-.
      eexists [], [EvLoggerError _]. repeat split; eauto.
Qed.

(** X1. One call of [get_response] writes to the cache at most once, and
    what it writes is a non-empty answer stored under the query itself. *)
Theorem get_response_writes_at_most_once query h o es :
  get_response json_loads env query h = (o, es) ->
  filter is_cache_write es = [] \/
  exists answer,
    filter is_cache_write es = [EvCacheSet query answer] /\
    truthy answer = true.
Proof.
  intros (es_run & tail & -> & Htail & Hrun)%get_response_calls.
  assert (Ht : filter is_cache_write tail = [])
    by (destruct Htail as [->|[msg ->]]; reflexivity).
  cbn [filter is_cache_write]. rewrite filter_app, Ht, app_nil_r.
  destruct Hrun as [->|[o' Hrun]]; [now left|].
  destruct (run_stages_writes _ _ _ Hrun) as [Hnone|(pre & a & -> & Ha & Hpre)].
  - left. now apply filter_none.
  - right. exists a. rewrite filter_app, (filter_none _ _ Hpre). now split.
Qed.

Lemma calls_app p es1 es2 : calls p (es1 ++ es2) = calls p es1 + calls p es2.
Proof.
  unfold calls. now rewrite filter_app, length_app.
Qed.

Lemma run_stages_calls (p : Event -> bool) (cost : Stage -> nat) :
  (forall s query h o es,
      stage_helper json_loads env s query h = (o, es) -> calls p es <= cost s) ->
  (forall key value, p (EvCacheSet key value) = false) ->
  forall stages query h o es,
    run_stages json_loads env stages query h = (o, es) ->
    calls p es <= list_sum (map cost stages).
Proof.
  intros Hcost Hset stages query.
  induction stages as [|s rest IH]; intros h o es.
  - intros [= <- <-]. apply le_n.
  - cbn [SportsExpert.run_stages map].
    change (list_sum (cost s :: map cost rest))
      with (cost s + list_sum (map cost rest)).
    destruct (stage_helper_returns json_loads env s query h)
      as (answer & es1 & Hs).
    rewrite (bind_returned _ _ _ Hs).
    pose proof (Hcost _ _ _ _ _ Hs) as Hes1.
    destruct (truthy answer).
    + run_monad.
      destruct (cache_set env query answer (h ++ es1)); cbn [fst snd];
        intros [= <- <-]; rewrite calls_app; unfold calls at 2;
        cbn [filter app]; rewrite Hset; cbn [List.length]; lia.
    + destruct (run_stages json_loads env rest query (h ++ es1))
        as [o' es2] eqn:Hrest.
      cbn [fst snd]. intros [= <- <-]. rewrite calls_app.
      pose proof (IH _ _ _ Hrest). lia.
Qed.

Lemma stage_helper_budget s query h o es :
  stage_helper json_loads env s query h = (o, es) ->
  calls is_cache_read es = 0 /\
  calls is_lookup es
  <= match s with LOCAL_KB => 2 | URL_SOURCES => 1 | _ => 0 end /\
  calls is_completion es
  <= match s with AI_GENERATE => 1 | WEB_SEARCH => 2 | _ => 0 end /\
  calls is_search es <= match s with WEB_SEARCH => 1 | _ => 0 end.
Proof.
  destruct s; cbn [SportsExpert.stage_helper].
  - unfold _check_local_knowledge. run_all; intros [= <- <-]; cbn; lia.
  - unfold _check_url_sources. run_all; intros [= <- <-]; cbn; lia.
  - unfold _generate_ai_response. run_all; intros [= <- <-]; cbn; lia.
  - unfold SportsExpert._perform_web_search. run_monad.
    repeat first [ rewrite check_validation_spec
                 | split_match; cbn [fst snd app] in * ];
      intros [= <- <-]; cbn; lia.
Qed.

Lemma stage_helper_once s query h o es :
  stage_helper json_loads env s query h = (o, es) ->
  calls is_get_knowledge_base es
  <= match s with LOCAL_KB => 1 | _ => 0 end /\
  calls is_find_answer es <= match s with LOCAL_KB => 1 | _ => 0 end /\
  calls is_search_url_sources es
  <= match s with URL_SOURCES => 1 | _ => 0 end /\
  calls (is_completion_for ai_system_prompt) es
  <= match s with AI_GENERATE => 1 | _ => 0 end /\
  calls (is_completion_for web_system_prompt) es
  <= match s with WEB_SEARCH => 1 | _ => 0 end /\
  calls (is_completion_for validation_prompt) es
  <= match s with WEB_SEARCH => 1 | _ => 0 end.
Proof.
  destruct s; cbn [SportsExpert.stage_helper].
  - unfold _check_local_knowledge. run_all; intros [= <- <-];
      vm_compute; repeat split; lia.
  - unfold _check_url_sources. run_all; intros [= <- <-];
      vm_compute; repeat split; lia.
  - unfold _generate_ai_response. run_all; intros [= <- <-];
      vm_compute; repeat split; lia.
  - unfold SportsExpert._perform_web_search. run_monad.
    repeat first [ rewrite check_validation_spec
                 | split_match; cbn [fst snd app] in * ];
      intros [= <- <-]; vm_compute; repeat split; lia.
Qed.

(** The calls of a kind that one request makes, from what each stage may
    make of them. *)
Lemma get_response_calls_bound (p : Event -> bool) (cost : Stage -> nat)
    query h o es :
  (forall s q h' o' es',
      stage_helper json_loads env s q h' = (o', es') -> calls p es' <= cost s) ->
  (forall key, p (EvCacheGet key) = false) ->
  (forall key value, p (EvCacheSet key value) = false) ->
  (forall msg, p (EvLoggerError msg) = false) ->
  get_response json_loads env query h = (o, es) ->
  calls p es <= list_sum (map cost stage_order).
Proof.
  intros Hcost Hget Hset Hlog
    (es_run & tail & -> & Htail & Hrun)%get_response_calls.
  change (EvCacheGet query :: es_run ++ tail)
    with ([EvCacheGet query] ++ es_run ++ tail).
  rewrite !calls_app.
  assert (Hhead : calls p [EvCacheGet query] = 0)
    by (unfold calls; cbn [filter]; now rewrite Hget).
  assert (Ht : calls p tail = 0).
  { destruct Htail as [->|[msg ->]]; [reflexivity|].
    unfold calls. cbn [filter]. now rewrite Hlog. }
  rewrite Hhead, Ht.
  destruct Hrun as [->|[o' Hrun]]; [cbn; lia|].
  pose proof (run_stages_calls p cost Hcost Hset _ _ _ Hrun). lia.
Qed.

(** X2. One call of [get_response] starts with the cache lookup, which it
    makes exactly once, and then makes at most three calls of the curated
    sources, at most three completion requests and at most one web
    search.  Nothing is retried: [get_knowledge_base], [find_answer] and
    [search_url_sources] are each called at most once, and so is the
    completion service with each of its three system prompts (the
    generation, the synthesis, the validation). *)
Theorem get_response_call_budget query h o es :
  get_response json_loads env query h = (o, es) ->
  hd_error es = Some (EvCacheGet query) /\
  calls is_cache_read es = 1 /\
  calls is_lookup es <= 3 /\
  calls is_completion es <= 3 /\
  calls is_search es <= 1 /\
  calls is_get_knowledge_base es <= 1 /\
  calls is_find_answer es <= 1 /\
  calls is_search_url_sources es <= 1 /\
  calls (is_completion_for ai_system_prompt) es <= 1 /\
  calls (is_completion_for web_system_prompt) es <= 1 /\
  calls (is_completion_for validation_prompt) es <= 1.
Proof.
  intros Hr.
  assert (Hhd : hd_error es = Some (EvCacheGet query)).
  { destruct (get_response_calls _ _ Hr) as (es_run & tail & -> & _).
    reflexivity. }
  assert (Hread : calls is_cache_read es = 1).
  { destruct (get_response_calls _ _ Hr)
      as (es_run & tail & -> & Htail & Hrun).
    change (EvCacheGet query :: es_run ++ tail)
      with ([EvCacheGet query] ++ es_run ++ tail).
    rewrite !calls_app.
    assert (Ht : calls is_cache_read tail = 0)
      by (destruct Htail as [->|[msg ->]]; reflexivity).
    rewrite Ht. destruct Hrun as [->|[o' Hrun]]; [reflexivity|].
    pose proof (run_stages_calls is_cache_read (fun _ => 0)
                  (fun s q h' o0 es0 H =>
                     eq_ind _ (fun n => n <= 0) (le_n 0) _
                       (eq_sym (proj1 (stage_helper_budget _ _ _ H))))
                  (fun _ _ => eq_refl) _ _ _ Hrun) as Hrunread.
    cbn in Hrunread. cbn. lia. }
  pose proof (@get_response_calls_bound is_lookup _ query h o es
                (fun s q h' o0 es0 H =>
                   proj1 (proj2 (stage_helper_budget _ _ _ H)))
                (fun _ => eq_refl) (fun _ _ => eq_refl) (fun _ => eq_refl) Hr).
  pose proof (@get_response_calls_bound is_completion _ query h o es
                (fun s q h' o0 es0 H =>
                   proj1 (proj2 (proj2 (stage_helper_budget _ _ _ H))))
                (fun _ => eq_refl) (fun _ _ => eq_refl) (fun _ => eq_refl) Hr).
  pose proof (@get_response_calls_bound is_search _ query h o es
                (fun s q h' o0 es0 H =>
                   proj2 (proj2 (proj2 (stage_helper_budget _ _ _ H))))
                (fun _ => eq_refl) (fun _ _ => eq_refl) (fun _ => eq_refl) Hr).
  pose proof (@get_response_calls_bound is_get_knowledge_base _ query h o es
                (fun s q h' o0 es0 H => proj1 (stage_helper_once _ _ _ H))
                (fun _ => eq_refl) (fun _ _ => eq_refl) (fun _ => eq_refl) Hr).
  pose proof (@get_response_calls_bound is_find_answer _ query h o es
                (fun s q h' o0 es0 H =>
                   proj1 (proj2 (stage_helper_once _ _ _ H)))
                (fun _ => eq_refl) (fun _ _ => eq_refl) (fun _ => eq_refl) Hr).
  pose proof (@get_response_calls_bound is_search_url_sources _ query h o es
                (fun s q h' o0 es0 H =>
                   proj1 (proj2 (proj2 (stage_helper_once _ _ _ H))))
                (fun _ => eq_refl) (fun _ _ => eq_refl) (fun _ => eq_refl) Hr).
  pose proof (@get_response_calls_bound (is_completion_for ai_system_prompt) _ query h o es
                (fun s q h' o0 es0 H =>
                   proj1 (proj2 (proj2 (proj2 (stage_helper_once _ _ _ H)))))
                (fun _ => eq_refl) (fun _ _ => eq_refl) (fun _ => eq_refl) Hr).
  pose proof (@get_response_calls_bound (is_completion_for web_system_prompt) _ query h o es
                (fun s q h' o0 es0 H =>
                   proj1 (proj2 (proj2 (proj2 (proj2
                     (stage_helper_once _ _ _ H))))))
                (fun _ => eq_refl) (fun _ _ => eq_refl) (fun _ => eq_refl) Hr).
  pose proof (@get_response_calls_bound (is_completion_for validation_prompt) _ query h o es
                (fun s q h' o0 es0 H =>
                   proj2 (proj2 (proj2 (proj2 (proj2
                     (stage_helper_once _ _ _ H))))))
                (fun _ => eq_refl) (fun _ _ => eq_refl) (fun _ => eq_refl) Hr).
  cbn [stage_order map list_sum fold_right Nat.add] in *.
  repeat split; trivial; lia.
Qed.

Ltac cannot_raise Hnever :=
  exfalso;
  destruct Hnever as (Hcg & Hcs & Hkb & Hfa & Hus & Hgc & Hws);
  match goal with
  | Hr : get_knowledge_base env ?h = Raised _ |- _ =>
      destruct (Hkb h) as [? Hv]; rewrite Hv in Hr; discriminate
  | Hr : find_answer env ?q ?h = Raised _ |- _ =>
      destruct (Hfa q h) as [? Hv]; rewrite Hv in Hr; discriminate
  | Hr : search_url_sources env ?q ?h = Raised _ |- _ =>
      destruct (Hus q h) as [? Hv]; rewrite Hv in Hr; discriminate
  | Hr : get_completion env ?s ?p ?h = Raised _ |- _ =>
      destruct (Hgc s p h) as [? Hv]; rewrite Hv in Hr; discriminate
  | Hr : web_search_search env ?q ?h = Raised _ |- _ =>
      destruct (Hws q h) as [? Hv]; rewrite Hv in Hr; discriminate
  | Hr : cache_get env ?q ?h = Raised _ |- _ =>
      destruct (Hcg q h) as [? Hv]; rewrite Hv in Hr; discriminate
  | Hr : cache_set env ?q ?a ?h = Raised _ |- _ =>
      destruct (Hcs q a h) as [? Hv]; rewrite Hv in Hr; discriminate
  end.

Lemma stage_helper_quiet s query h o es :
  never_raises env ->
  stage_helper json_loads env s query h = (o, es) ->
  calls is_log es <= 0.
Proof.
  intros Hnever. destruct s; cbn [SportsExpert.stage_helper].
  - unfold _check_local_knowledge. run_all; intros [= <- <-];
      first [ apply le_n | cannot_raise Hnever ].
  - unfold _check_url_sources. run_all; intros [= <- <-];
      first [ apply le_n | cannot_raise Hnever ].
  - unfold _generate_ai_response. run_all; intros [= <- <-];
      first [ apply le_n | cannot_raise Hnever ].
  - unfold SportsExpert._perform_web_search. run_monad.
    repeat first [ rewrite check_validation_spec
                 | split_match; cbn [fst snd app] in * ];
      intros [= <- <-]; first [ apply le_n | cannot_raise Hnever ].
Qed.

(** X3. When no collaborator raises, [get_response] logs nothing,
    whatever the answers are (a verdict that cannot be read included),
    and its answer is not the product of the top-level handler: its calls
    are those of the [try] body. *)
Theorem no_failure_no_log query h o es :
  never_raises env ->
  get_response json_loads env query h = (o, es) ->
  existsb is_log es = false /\
  get_response_body json_loads env query h = (o, es).
Proof.
  intros Hnever Hr.
  destruct (get_response_body json_loads env query h) as [[answer|e] es'] eqn:Hbody.
  - rewrite (get_response_of_body_returned _ _ _ _ Hbody) in Hr.
    injection Hr as <- <-. split; [|reflexivity].
    destruct (cache_get env query h) as [cached|e'] eqn:Hget;
      [|cannot_raise Hnever].
    destruct (truthy cached) eqn:Hcached.
    + rewrite (get_response_body_hit _ _ _ _ Hget Hcached) in Hbody.
      now injection Hbody as _ <-.
    + rewrite (get_response_body_miss _ _ _ _ Hget Hcached) in Hbody.
      destruct (run_stages json_loads env stage_order query
                  (h ++ [EvCacheGet query])) as [o' es_run] eqn:Hrun.
      injection Hbody as _ <-.
      pose proof (run_stages_calls is_log (fun _ => 0)
                    (fun s q h' o0 es0 H => stage_helper_quiet _ _ _ Hnever H)
                    (fun _ _ => eq_refl) _ _ _ Hrun) as Hlog.
      cbn in Hlog. unfold calls in Hlog. cbn [existsb is_log orb].
      destruct (filter is_log es_run) as [|ev l] eqn:Hf; [|cbn in Hlog; lia].
      destruct (existsb is_log es_run) eqn:Hex; [|reflexivity].
      apply existsb_exists in Hex. destruct Hex as (ev & Hin & Hev).
      assert (Hin' : In ev (filter is_log es_run))
        by (apply filter_In; now split).
      now rewrite Hf in Hin'.
  - destruct (get_response_body_raised _ _ _ _ Hbody)
      as [[_ Hraised]|(pre & a & _ & _ & Hraised & _)];
      cannot_raise Hnever.
Qed.

(** X4. Whatever answer comes out of the web-search stage was approved:
    the stage returns an answer only after exactly three calls (the
    search, the synthesis, the validation), the answer is the synthesis
    itself, and the validation response decoded to an object whose
    [is_valid] value is true as a Python condition. *)
Theorem web_answer_was_approved query h answer es :
  _perform_web_search json_loads env query h = (Returned (Some answer), es) ->
  exists results validation,
    validation_reached env query h results (Some answer) validation /\
    approves json_loads validation = true /\
    es = validation_calls query results (Some answer).
Proof.
  unfold SportsExpert._perform_web_search. run_monad.
  destruct (web_search_search env (search_query_of query) h)
    as [[[|r results]|]|e] eqn:Hsearch; cbn [fst snd app]; try discriminate.
  destruct (get_completion env web_system_prompt
              (synthesis_prompt query (context_of (r :: results)))
              (h ++ [EvWebSearch (search_query_of query)]))
    as [response|e] eqn:Hsynth; cbn [fst snd app]; try discriminate.
  destruct (truthy response) eqn:Hresponse; cbn [fst snd app];
    try discriminate.
  rewrite <- app_assoc. cbn [app].
  destruct (get_completion env validation_prompt
              (validation_request response (context_of (r :: results)))
              (h ++ [EvWebSearch (search_query_of query);
                     EvGetCompletion web_system_prompt
                       (synthesis_prompt query (context_of (r :: results)))]))
    as [validation|e] eqn:Hvalidation; cbn [fst snd app]; try discriminate.
  rewrite check_validation_spec.
  destruct (approves json_loads validation) eqn:Happroves; cbn [fst snd app];
    try discriminate.
  intros [= -> <-]. exists (r :: results), validation.
  repeat split; trivial.
Qed.

(** X5. The web-search stage stops early on empty input: when the search
    gives no result ([None] or an empty list) it makes no completion
    request at all, and when the synthesis comes back empty it does not
    ask for a validation.  Both end the stage without an answer and
    without a log entry. *)
Theorem web_search_stops_on_empty_input query h :
  (forall results,
      web_search_search env (search_query_of query) h = Returned results ->
      truthy results = false ->
      _perform_web_search json_loads env query h
      = (Returned None, [EvWebSearch (search_query_of query)])) /\
  (forall results response,
      web_search_search env (search_query_of query) h
      = Returned (Some results) ->
      truthy results = true ->
      get_completion env web_system_prompt
        (synthesis_prompt query (context_of results))
        (h ++ [EvWebSearch (search_query_of query)]) = Returned response ->
      truthy response = false ->
      _perform_web_search json_loads env query h
      = (Returned None,
         [EvWebSearch (search_query_of query);
          EvGetCompletion web_system_prompt
            (synthesis_prompt query (context_of results))])).
Proof.
  split.
  - intros results Hsearch Hresults.
    unfold SportsExpert._perform_web_search. run_monad. rewrite Hsearch.
    now destruct results as [[|r results]|].
  - intros results response Hsearch Hresults Hsynth Hresponse.
    unfold SportsExpert._perform_web_search. run_monad. rewrite Hsearch.
    destruct results as [|r results]; [discriminate|].
    cbn [app]. now rewrite Hsynth, Hresponse.
Qed.

End RequestCalls.

(** ** The /ask handler, path by path *)

Section AskPaths.

Import App.

Variable g : Globals.
Variable get_json : Trace -> Outcome JSON.

(** What /ask does once the request has a question and the selector has
    answered: the chosen response decides the reply. *)
Lemma ask_selected select_expert data question expert_type direct es_sel h :
  expert_selector g = Some select_expert ->
  get_json h = Returned data ->
  py_get data "question" JNull = Returned question ->
  truthy question = true ->
  select_expert question (h ++ [EvGetJson])
  = (Returned (expert_type, direct), es_sel) ->
  ask g get_json h
  = match chosen_response g expert_type direct question
            (h ++ [EvGetJson] ++ es_sel) with
    | (Returned response, es) =>
        (Returned (reply response expert_type), EvGetJson :: es_sel ++ es)
    | (Raised e, es) =>
        (Returned (internal_error e),
         EvGetJson :: es_sel ++ es ++
         [EvPrint ("Error in /ask endpoint: " ++ exc_str e)%string])
    end.
Proof.
  intros Hsel Hjson Hquestion Htruthy Hselected.
  unfold ask, print. run_monad.
  rewrite Hsel, Hjson. cbn [app]. rewrite Hquestion, Htruthy.
  cbn [negb app]. rewrite !app_nil_r, Hselected.
  unfold chosen_response, reply, internal_error. run_monad.
  rewrite <- app_assoc. cbn [app].
  match goal with
  | |- context [(if truthy expert_type then ?a else ?b) ?hh] =>
      destruct ((if truthy expert_type then a else b) hh)
        as [[response|e] es]
  end; [|cbn [app]; now rewrite <- app_assoc].
  destruct (truthy response); cbn [negb fst snd app]; now rewrite app_nil_r.
Qed.

Lemma chosen_by_name name direct question :
  truthy name = true ->
  chosen_response g (Some name) direct question
  = match expert_named g name with
    | Some expert => expert question
    | None => ret None
    end.
Proof.
  intros Hname.
  unfold chosen_response, expert_named, eq_str, get_response_of.
  change (truthy (Some name)) with (truthy name). rewrite Hname.
  destruct (String.eqb name "sports") eqn:Hsports.
  { apply String.eqb_eq in Hsports. subst name.
    now destruct (sports_expert g). }
  destruct (String.eqb name "food") eqn:Hfood.
  { apply String.eqb_eq in Hfood. subst name.
    now destruct (food_expert g). }
  destruct (String.eqb name "ai") eqn:Hai.
  { apply String.eqb_eq in Hai. subst name.
    now destruct (ai_expert g). }
  destruct (String.eqb name "sudostar") eqn:Hsudostar.
  { apply String.eqb_eq in Hsudostar. subst name.
    now destruct (sudostar_expert g). }
  reflexivity.
Qed.

(** X6. A request whose JSON object has no [question], or a [question]
    that is false as a Python condition (null, the empty string, 0, an
    empty list), is answered 400 MISSING_QUESTION; the body is read and
    nothing else is called: neither the selector nor an expert runs. *)
Theorem ask_missing_question select_expert kvs h :
  expert_selector g = Some select_expert ->
  get_json h = Returned (JDict kvs) ->
  (lookup "question" kvs = None \/
   exists v, lookup "question" kvs = Some v /\ truthy v = false) ->
  ask g get_json h
  = (Returned (mkResponse (ErrorBody "Question is required" "MISSING_QUESTION")
                 400),
     [EvGetJson]).
Proof.
  intros Hsel Hjson Hquestion. unfold ask, print. run_monad.
  rewrite Hsel, Hjson. cbn [py_get app].
  destruct Hquestion as [->|(v & -> & Hv)]; [reflexivity|].
  now rewrite Hv.
Qed.

(** X7. A request whose JSON body is not an object (null, a list, a
    string, a number) is not answered 400: [data.get] raises, and the
    reply is 500 INTERNAL_ERROR carrying the text of the AttributeError,
    which is printed; the selector is not called. *)
Theorem ask_rejects_non_object_body select_expert data h :
  expert_selector g = Some select_expert ->
  get_json h = Returned data ->
  (forall kvs, data <> JDict kvs) ->
  ask g get_json h
  = (Returned (internal_error (AttributeError (type_name data))),
     [EvGetJson;
      EvPrint ("Error in /ask endpoint: " ++
               exc_str (AttributeError (type_name data)))%string]).
Proof.
  intros Hsel Hjson Hdata. unfold ask, print, internal_error. run_monad.
  rewrite Hsel, Hjson.
  destruct data; try reflexivity. now destruct (Hdata kvs).
Qed.

(** X8. When the selector names no expert ([None] or an empty name), the
    reply is built from its direct answer alone and no expert is called:
    a non-empty direct answer is sent as a success of type "general", an
    empty or missing one gives 500 NO_RESPONSE. *)
Theorem ask_direct_answer select_expert data question expert_type direct
    es_sel h :
  expert_selector g = Some select_expert ->
  get_json h = Returned data ->
  py_get data "question" JNull = Returned question ->
  truthy question = true ->
  select_expert question (h ++ [EvGetJson])
  = (Returned (expert_type, direct), es_sel) ->
  truthy expert_type = false ->
  ask g get_json h
  = (Returned (if truthy direct
               then mkResponse (SuccessBody direct "general") 200
               else mkResponse
                      (ErrorBody "Could not generate response" "NO_RESPONSE")
                      500),
     EvGetJson :: es_sel).
Proof.
  intros Hsel Hjson Hquestion Htruthy Hselected Htype.
  rewrite (ask_selected Hsel Hjson Hquestion Htruthy Hselected).
  unfold chosen_response, reply. rewrite Htype. run_monad.
  rewrite app_nil_r.
  destruct (truthy direct); cbn [negb]; [|reflexivity].
  now destruct expert_type as [[|c s]|].
Qed.

(** X9. When the selector gives a non-empty expert type that is none of
    "sports", "food", "ai", "sudostar", the reply is 500 NO_RESPONSE and no
    expert is called, even if the selector also gave a direct answer: the
    direct answer is ignored as soon as an expert type is given. *)
Theorem ask_unknown_expert_type select_expert data question name direct
    es_sel h :
  expert_selector g = Some select_expert ->
  get_json h = Returned data ->
  py_get data "question" JNull = Returned question ->
  truthy question = true ->
  select_expert question (h ++ [EvGetJson])
  = (Returned (Some name, direct), es_sel) ->
  truthy name = true ->
  ~ In name expert_names ->
  ask g get_json h
  = (Returned (mkResponse
                 (ErrorBody "Could not generate response" "NO_RESPONSE") 500),
     EvGetJson :: es_sel).
Proof.
  intros Hsel Hjson Hquestion Htruthy Hselected Hname Hunknown.
  rewrite (ask_selected Hsel Hjson Hquestion Htruthy Hselected).
  rewrite (chosen_by_name _ _ _ Hname).
  assert (Hnone : expert_named g name = None).
  { unfold expert_named.
    destruct (String.eqb name "sports") eqn:H1;
      [apply String.eqb_eq in H1; subst name; destruct Hunknown; cbn; tauto|].
    destruct (String.eqb name "food") eqn:H2;
      [apply String.eqb_eq in H2; subst name; destruct Hunknown; cbn; tauto|].
    destruct (String.eqb name "ai") eqn:H3;
      [apply String.eqb_eq in H3; subst name; destruct Hunknown; cbn; tauto|].
    destruct (String.eqb name "sudostar") eqn:H4;
      [apply String.eqb_eq in H4; subst name; destruct Hunknown; cbn; tauto|].
    reflexivity. }
  rewrite Hnone. run_monad. now rewrite app_nil_r.
Qed.

(** X10. When the selector names one of the four experts and that expert
    is there, the reply is made of that expert's answer alone: a
    non-empty answer is sent as it is, with the expert's name as type,
    and an empty or missing one gives 500 NO_RESPONSE (the direct answer
    of the selector is not used as a substitute).  The calls are those of
    the selector followed by those of that expert. *)
Theorem ask_relays_expert_answer select_expert data question name direct
    es_sel expert response es h :
  expert_selector g = Some select_expert ->
  get_json h = Returned data ->
  py_get data "question" JNull = Returned question ->
  truthy question = true ->
  select_expert question (h ++ [EvGetJson])
  = (Returned (Some name, direct), es_sel) ->
  truthy name = true ->
  expert_named g name = Some expert ->
  expert question (h ++ [EvGetJson] ++ es_sel) = (Returned response, es) ->
  ask g get_json h
  = (Returned (if truthy response
               then mkResponse (SuccessBody response name) 200
               else mkResponse
                      (ErrorBody "Could not generate response" "NO_RESPONSE")
                      500),
     EvGetJson :: es_sel ++ es).
Proof.
  intros Hsel Hjson Hquestion Htruthy Hselected Hname Hexpert Hresponse.
  rewrite (ask_selected Hsel Hjson Hquestion Htruthy Hselected).
  rewrite (chosen_by_name _ _ _ Hname), Hexpert, Hresponse.
  unfold reply, or_default. rewrite Hname.
  now destruct (truthy response).
Qed.

(** X11. An exception raised while reading the request body, by the
    selector, or by the chosen expert never leaves /ask: each is printed
    and answered 500 INTERNAL_ERROR with the text of the exception as the
    error. *)
Theorem ask_failures_are_internal_errors h :
  (forall select_expert e,
      expert_selector g = Some select_expert ->
      get_json h = Raised e ->
      ask g get_json h
      = (Returned (internal_error e),
         [EvGetJson;
          EvPrint ("Error in /ask endpoint: " ++ exc_str e)%string])) /\
  (forall select_expert data question e es_sel,
      expert_selector g = Some select_expert ->
      get_json h = Returned data ->
      py_get data "question" JNull = Returned question ->
      truthy question = true ->
      select_expert question (h ++ [EvGetJson]) = (Raised e, es_sel) ->
      ask g get_json h
      = (Returned (internal_error e),
         EvGetJson :: es_sel ++
         [EvPrint ("Error in /ask endpoint: " ++ exc_str e)%string])) /\
  (forall select_expert data question name direct es_sel expert e es,
      expert_selector g = Some select_expert ->
      get_json h = Returned data ->
      py_get data "question" JNull = Returned question ->
      truthy question = true ->
      select_expert question (h ++ [EvGetJson])
      = (Returned (Some name, direct), es_sel) ->
      truthy name = true ->
      expert_named g name = Some expert ->
      expert question (h ++ [EvGetJson] ++ es_sel) = (Raised e, es) ->
      ask g get_json h
      = (Returned (internal_error e),
         EvGetJson :: es_sel ++ es ++
         [EvPrint ("Error in /ask endpoint: " ++ exc_str e)%string])).
Proof.
  repeat apply conj.
  - intros select_expert e Hsel Hjson. unfold ask, print, internal_error.
    run_monad. now rewrite Hsel, Hjson.
  - intros select_expert data question e es_sel Hsel Hjson Hquestion Htruthy
      Hselected.
    unfold ask, print, internal_error. run_monad.
    rewrite Hsel, Hjson. cbn [app]. rewrite Hquestion, Htruthy.
    cbn [negb app]. rewrite !app_nil_r, Hselected. reflexivity.
  - intros select_expert data question name direct es_sel expert e es
      Hsel Hjson Hquestion Htruthy Hselected Hname Hexpert Hraised.
    rewrite (ask_selected Hsel Hjson Hquestion Htruthy Hselected).
    now rewrite (chosen_by_name _ _ _ Hname), Hexpert, Hraised.
Qed.

Variable json_loads : string -> Outcome JSON.
Variable env : Collaborators.

(** X12. A question that is a non-empty string and is routed to the
    sports expert is always answered with a success: whatever the
    collaborators of the expert do (fail, miss, answer), /ask replies 200
    with a non-empty answer of type "sports", never NO_RESPONSE or
    INTERNAL_ERROR. *)
Theorem ask_sports_always_answers select_expert data query direct es_sel
    expert h :
  expert_selector g = Some select_expert ->
  get_json h = Returned data ->
  py_get data "question" JNull = Returned (JStr query) ->
  query <> EmptyString ->
  select_expert (JStr query) (h ++ [EvGetJson])
  = (Returned (Some "sports", direct), es_sel) ->
  sports_expert g = Some expert ->
  (forall h', expert (JStr query) h' = get_response json_loads env query h') ->
  exists answer es,
    ask g get_json h
    = (Returned (mkResponse (SuccessBody (Some answer) "sports") 200), es) /\
    answer <> EmptyString.
Proof.
  intros Hsel Hjson Hquestion Hquery Hselected Hexpert Hmethod.
  assert (Htruthy : truthy (JStr query) = true)
    by (destruct query; [contradiction | reflexivity]).
  destruct (get_response_returns json_loads env query
              (h ++ [EvGetJson] ++ es_sel)) as (answer & es & Hr & Hanswer).
  exists answer, (EvGetJson :: es_sel ++ es). split; [|exact Hanswer].
  rewrite (ask_relays_expert_answer (name:="sports") (expert:=expert)
             Hsel Hjson Hquestion Htruthy Hselected eq_refl Hexpert
             (eq_trans (Hmethod _) Hr)).
  now destruct answer.
Qed.

(** X13. /health and /ask agree on the expert system: /health reports
    it as "error" exactly when every /ask is answered 500
    EXPERT_SYSTEM_ERROR without reading the request, and when it reports
    "running" no /ask is ever answered with that code.  The overall
    status of /health is "healthy" with HTTP 200 in both cases. *)
Theorem health_agrees_with_ask :
  (service_expert_system (fst (health g)) = "error" <->
   forall request h,
     ask g request h
     = (Returned (mkResponse
                    (ErrorBody "Expert system is not initialized"
                       "EXPERT_SYSTEM_ERROR") 500), [])) /\
  (service_expert_system (fst (health g)) = "running" ->
   forall request h r es error,
     ask g request h = (Returned r, es) ->
     body r <> ErrorBody error "EXPERT_SYSTEM_ERROR") /\
  health_status (fst (health g)) = "healthy" /\
  snd (health g) = 200%Z.
Proof.
  unfold health. cbn [fst snd service_expert_system health_status].
  repeat apply conj; try reflexivity.
  - intros Herror request h. unfold ask.
    destruct (expert_selector g); [discriminate|reflexivity].
  - intros Hask. destruct (expert_selector g) as [select_expert|] eqn:Hsel;
      [|reflexivity].
    specialize (Hask (fun _ => Raised (mkExc "BadRequest" "")) []).
    unfold ask, print in Hask. run_monad. rewrite Hsel in Hask.
    discriminate.
  - intros Hrunning request h r es error.
    unfold ask, get_response_of, print. run_monad.
    destruct (expert_selector g); [|discriminate].
    repeat (split_match; cbn [fst snd app] in * );
      intros [= <- <-]; discriminate.
Qed.

End AskPaths.

(** ** Start-up *)

Section StartupFacts.

Import App.

Variable st : Startup.

Lemma all_built_reaches_every_expert g name :
  all_built g = true -> In name expert_names -> expert_named g name <> None.
Proof.
  unfold all_built, expert_named.
  destruct (sports_expert g), (food_expert g), (ai_expert g),
    (sudostar_expert g), (expert_selector g); try discriminate.
  intros _ [<-|[<-|[<-|[<-|[]]]]]; discriminate.
Qed.

(** X14. Start-up never raises and is all or nothing: either every
    constructor returned, and then all four experts and the selector are
    there (so that each of the four expert names reaches its expert) and
    nothing is printed, or one of them raised, and then every object is
    [None], the experts built before the failure included, and the
    exception is printed. *)
Theorem init_all_or_nothing h :
  exists g es,
    init_expert_system st h = (Returned g, es) /\
    ((all_built g = true /\ es = [] /\
      forall name, In name expert_names -> expert_named g name <> None) \/
     (g = no_globals /\
      exists e,
        es = [EvPrint ("Error initializing expert system: " ++ exc_str e)%string])).
Proof.
  unfold init_expert_system, __init__, print. run_monad.
  repeat (split_match; cbn [fst snd app] in * );
    eexists _, _; (split; [reflexivity|]);
    first [ right; split; [reflexivity | eexists; reflexivity]
          | left; split; [reflexivity|]; split; [reflexivity|];
            intros name; now apply all_built_reaches_every_expert ].
Qed.

(** X15. A configuration whose sports section has [cache_enabled] but no
    readable [cache_ttl] brings the whole expert system down, not the
    sports expert alone: the failed subscript is caught by the start-up
    code, its text is printed, every object is left [None], and from then
    on every /ask is answered 500 EXPERT_SYSTEM_ERROR while /health still
    answers "healthy" with the expert system in "error". *)
Theorem init_without_cache_setting h config client search experts sports
    enabled e :
  load_config st = Returned config ->
  BaseExpert_init (services st) "sports" = Returned tt ->
  OpenAIClient (services st) = Returned client ->
  WebSearchClient (services st) = Returned search ->
  py_getitem config "experts" = Returned experts ->
  py_getitem experts "sports" = Returned sports ->
  py_getitem sports "cache_enabled" = Returned enabled ->
  py_getitem sports "cache_ttl" = Raised e ->
  init_expert_system st h
  = (Returned no_globals,
     [EvPrint ("Error initializing expert system: " ++ exc_str e)%string]) /\
  (forall request h',
      ask no_globals request h'
      = (Returned (mkResponse
                     (ErrorBody "Expert system is not initialized"
                        "EXPERT_SYSTEM_ERROR") 500), [])) /\
  fst (health no_globals) = mkHealth "healthy" "running" "disabled" "error".
Proof.
  intros Hconfig Hbase Hclient Hsearch Hexperts Hsports Henabled Httl.
  repeat apply conj; [|reflexivity|reflexivity].
  unfold init_expert_system, __init__, print. run_monad.
  rewrite Hconfig, Hbase, Hclient, Hsearch, Hexperts, Hsports, Henabled, Httl.
  reflexivity.
Qed.

End StartupFacts.

(** ** The further properties at concrete inputs *)

Lemma get_response_writes_at_most_once_witness :
  filter is_cache_write
    (snd (get_response JsonText.loads ai_answers world_cup_query [])) = [] \/
  exists answer,
    filter is_cache_write
      (snd (get_response JsonText.loads ai_answers world_cup_query []))
    = [EvCacheSet world_cup_query answer] /\
    truthy answer = true.
Proof.
  apply (get_response_writes_at_most_once JsonText.loads ai_answers
           world_cup_query []
           (o:=fst (get_response JsonText.loads ai_answers world_cup_query []))).
  reflexivity.
Defined.

Lemma get_response_call_budget_witness :
  calls is_completion
    (snd (get_response JsonText.loads (web_decides (Some verdict_approving))
            world_cup_query [])) <= 3 /\
  calls is_search
    (snd (get_response JsonText.loads (web_decides (Some verdict_approving))
            world_cup_query [])) <= 1 /\
  calls (is_completion_for web_system_prompt)
    (snd (get_response JsonText.loads (web_decides (Some verdict_approving))
            world_cup_query [])) <= 1.
Proof.
  pose proof (get_response_call_budget JsonText.loads
                (web_decides (Some verdict_approving)) world_cup_query []
                (o:=fst (get_response JsonText.loads
                           (web_decides (Some verdict_approving))
                           world_cup_query []))
                (es:=snd (get_response JsonText.loads
                            (web_decides (Some verdict_approving))
                            world_cup_query []))
                eq_refl) as H.
  exact (conj (proj1 (proj2 (proj2 (proj2 H))))
           (conj (proj1 (proj2 (proj2 (proj2 (proj2 H)))))
                 (proj1 (proj2 (proj2 (proj2 (proj2 (proj2 (proj2 (proj2
                    (proj2 H))))))))))).
Defined.

Lemma ai_answers_never_raises : never_raises ai_answers.
Proof.
  repeat split; intros; cbn;
    repeat match goal with
           | |- context [if ?b then _ else _] => destruct b
           end;
    eexists; reflexivity.
Qed.

Lemma no_failure_no_log_witness :
  existsb is_log
    (snd (get_response JsonText.loads ai_answers world_cup_query [])) = false.
Proof.
  apply (proj1 (no_failure_no_log JsonText.loads world_cup_query []
                  (o:=fst (get_response JsonText.loads ai_answers
                             world_cup_query []))
                  ai_answers_never_raises eq_refl)).
Defined.

Lemma web_answer_was_approved_witness :
  exists results validation,
    validation_reached (web_decides (Some verdict_approving)) world_cup_query
      (before_web_search world_cup_query) results (Some world_cup_answer)
      validation /\
    approves JsonText.loads validation = true /\
    validation_calls world_cup_query snippets (Some world_cup_answer)
    = validation_calls world_cup_query results (Some world_cup_answer).
Proof.
  apply (web_answer_was_approved JsonText.loads
           (web_decides (Some verdict_approving)) world_cup_query
           (before_web_search world_cup_query)).
  reflexivity.
Defined.

Lemma web_search_stops_on_empty_input_witness :
  _perform_web_search JsonText.loads all_miss world_cup_query []
  = (Returned None, [EvWebSearch (search_query_of world_cup_query)]).
Proof.
  apply (proj1 (web_search_stops_on_empty_input JsonText.loads all_miss
                  world_cup_query []) (Some [])); reflexivity.
Defined.

Lemma ask_missing_question_witness :
  App.ask (sports_only all_miss)
    (fun _ => Returned (JDict [("question", JStr "")])) []
  = (Returned (App.mkResponse
                 (App.ErrorBody "Question is required" "MISSING_QUESTION") 400),
     [EvGetJson]).
Proof.
  apply (ask_missing_question (sports_only all_miss)
           (fun _ => Returned (JDict [("question", JStr "")]))
           (select_expert:=fun _ => ret (Some "sports", None))
           (kvs:=[("question", JStr "")]) []); try reflexivity.
  right. exists (JStr ""). now split.
Defined.

Lemma ask_rejects_non_object_body_witness :
  App.ask (sports_only all_miss) (fun _ => Returned (JList [])) []
  = (Returned (App.mkResponse
                 (App.ErrorBody "'list' object has no attribute 'get'"
                    "INTERNAL_ERROR") 500),
     [EvGetJson;
      EvPrint "Error in /ask endpoint: 'list' object has no attribute 'get'"]).
Proof.
  apply (ask_rejects_non_object_body (sports_only all_miss)
           (fun _ => Returned (JList []))
           (select_expert:=fun _ => ret (Some "sports", None))
           (data:=JList []) []); try reflexivity.
  discriminate.
Defined.

Lemma ask_direct_answer_witness :
  App.ask (selecting (None, Some "Merhaba!") all_miss)
    (request_of "selam") []
  = (Returned (App.mkResponse (App.SuccessBody (Some "Merhaba!") "general")
                 200),
     [EvGetJson]).
Proof.
  apply (ask_direct_answer (selecting (None, Some "Merhaba!") all_miss)
           (request_of "selam")
           (select_expert:=fun _ => ret (None, Some "Merhaba!"))
           (data:=JDict [("question", JStr "selam")])
           (question:=JStr "selam") (expert_type:=None)
           (direct:=Some "Merhaba!") (es_sel:=[]) []); reflexivity.
Defined.

Lemma ask_unknown_expert_type_witness :
  App.ask (selecting (Some "music", Some "Merhaba!") all_miss)
    (request_of "selam") []
  = (Returned (App.mkResponse
                 (App.ErrorBody "Could not generate response" "NO_RESPONSE")
                 500),
     [EvGetJson]).
Proof.
  apply (ask_unknown_expert_type
           (selecting (Some "music", Some "Merhaba!") all_miss)
           (request_of "selam")
           (select_expert:=fun _ => ret (Some "music", Some "Merhaba!"))
           (data:=JDict [("question", JStr "selam")])
           (question:=JStr "selam") (name:="music")
           (direct:=Some "Merhaba!") (es_sel:=[]) []); try reflexivity.
  cbn. intuition discriminate.
Defined.

Lemma ask_relays_expert_answer_witness :
  App.ask (selecting (Some "food", None) all_miss) (request_of "menemen") []
  = (Returned (App.mkResponse (App.SuccessBody (Some "food") "food") 200),
     [EvGetJson]).
Proof.
  apply (ask_relays_expert_answer
           (selecting (Some "food", None) all_miss) (request_of "menemen")
           (select_expert:=fun _ => ret (Some "food", None))
           (data:=JDict [("question", JStr "menemen")])
           (question:=JStr "menemen") (name:="food") (direct:=None)
           (es_sel:=[]) (expert:=fun _ => ret (Some "food"))
           (response:=Some "food") (es:=[]) []); reflexivity.
Defined.

Lemma ask_failures_are_internal_errors_witness :
  App.ask selector_down (request_of world_cup_query) []
  = (Returned (App.internal_error (mkExc "RuntimeError" "classifier failed")),
     [EvGetJson; EvPrint "Error in /ask endpoint: classifier failed"]).
Proof.
  apply (proj1 (proj2 (ask_failures_are_internal_errors selector_down
                         (request_of world_cup_query) []))
           (fun _ => raise (mkExc "RuntimeError" "classifier failed"))
           (JDict [("question", JStr world_cup_query)])
           (JStr world_cup_query)
           (mkExc "RuntimeError" "classifier failed") []); reflexivity.
Defined.

Lemma ask_sports_always_answers_witness :
  exists answer es,
    App.ask (sports_only all_miss) (request_of world_cup_query) []
    = (Returned (App.mkResponse (App.SuccessBody (Some answer) "sports") 200),
       es) /\
    answer <> EmptyString.
Proof.
  apply (ask_sports_always_answers (sports_only all_miss)
           (request_of world_cup_query) JsonText.loads all_miss
           (select_expert:=fun _ => ret (Some "sports", None))
           (data:=JDict [("question", JStr world_cup_query)])
           (query:=world_cup_query)
           (direct:=None) (es_sel:=[]) (expert:=sports_expert_of all_miss)
           []); try reflexivity.
  discriminate.
Defined.

Lemma init_without_cache_setting_witness :
  App.init_expert_system (startup_with config_without_ttl) []
  = (Returned App.no_globals,
     [EvPrint "Error initializing expert system: 'cache_ttl'"]).
Proof.
  apply (proj1 (init_without_cache_setting
                  (startup_with config_without_ttl) []
                  (config:=config_without_ttl)
                  (e:=mkExc "KeyError" "'cache_ttl'")
                  eq_refl eq_refl eq_refl eq_refl eq_refl eq_refl eq_refl
                  eq_refl)).
Defined.
